(** * The task management engine of the to-do list application

    A shallow embedding of [src/task_manager.py] (classes [Task] and
    [TaskManager]) and of the storage functions of [src/database.py]
    that the manager calls, followed by the properties of the
    specification that were checked against it.

    Conventions of the embedding.
    - Python attributes are typed as the source annotates them: the six
      text attributes of a task are strings, [due_date] is an optional
      date-time, [created_at] and [updated_at] are date-times.  Storing a
      value of another type in one of them, or storing anything under the
      name of a method or of an attribute inherited from [object], leaves
      the embedding; the operation then yields [Untyped], about which
      nothing is stated.  The theorems about [update_task] take keyword
      arguments that stay inside the embedding ([typed_kwarg]) and show
      that the call returns.
    - The objects of [self.tasks] are pairwise distinct, so an object of
      the list is identified by its position.
    - Strings are sequences of code points below 256.
    - A naive [datetime] is the number of microseconds since
      0001-01-01T00:00:00; comparison and [timedelta] arithmetic are those
      of [Z].  The bounds [datetime.min]/[datetime.max] of the
      representation are not modelled.
    - [datetime.now()] and [uuid.uuid4()] read two oracles carried by the
      state; every call consumes one reading.
    - [datetime.isoformat]/[datetime.fromisoformat] belong to Python's
      standard library and are an interface ([IsoFormat]) with its two
      laws.
    - The file system is the map from user names to the content of
      [<username>_tasks.json], a list of backups and a flag [writable]
      that says whether writing succeeds. *)

From Stdlib Require Import ZArith Lia Ascii String List Bool.
From Stdlib Require Import DecimalString DecimalPos DecimalZ.
From stdpp Require Import base option list gmap strings fin_maps.

Local Open Scope string_scope.

(** ** Values and strings *)

Abbreviation datetime := Z (only parsing).

(** [timedelta(days=n)] in microseconds. *)
Definition timedelta_days (n : Z) : Z := (n * 86400000000)%Z.

(** [datetime.max], 9999-12-31T23:59:59.999999. *)
Definition datetime_max : datetime := (3652059 * 86400000000 - 1)%Z.

(** [d.date()], as the number of whole days since 0001-01-01. *)
Definition date (d : datetime) : Z := (d / 86400000000)%Z.

(** The values that occur in keyword arguments and in stored records:
    [None], booleans, integers, text, and [datetime] objects. *)
Inductive pyval : Type :=
  | PNone
  | PBool (b : bool)
  | PInt (z : Z)
  | PStr (s : string)
  | PDate (d : datetime).

(** Python's truth value of an object. *)
Definition truthy (v : pyval) : bool :=
  match v with
  | PNone => false
  | PBool b => b
  | PInt z => negb (z =? 0)%Z
  | PStr s => negb (s =? "")
  | PDate _ => true
  end.

(** [v == s] for a text [s]. *)
Definition is_str (s : string) (v : pyval) : bool :=
  match v with
  | PStr s' => s' =? s
  | _ => false
  end.

(** [type(v).__name__], as it appears in the text of an [AttributeError]. *)
Definition type_name (v : pyval) : string :=
  match v with
  | PNone => "NoneType"
  | PBool _ => "bool"
  | PInt _ => "int"
  | PStr _ => "str"
  | PDate _ => "datetime.datetime"
  end.

(** [str.isspace] on one code point below 256. *)
Definition isspace (c : ascii) : bool :=
  let n := nat_of_ascii c in
  (((9 <=? n) && (n <=? 13)) || ((28 <=? n) && (n <=? 32))
   || (n =? 133) || (n =? 160))%nat.

Fixpoint lstrip (s : string) : string :=
  match s with
  | EmptyString => EmptyString
  | String c s' => if isspace c then lstrip s' else s
  end.

Fixpoint rstrip (s : string) : string :=
  match s with
  | EmptyString => EmptyString
  | String c s' =>
      match rstrip s' with
      | EmptyString => if isspace c then EmptyString else String c EmptyString
      | r => String c r
      end
  end.

(** [s.strip()] *)
Definition strip (s : string) : string := rstrip (lstrip s).

(** [str.lower] on one code point below 256. *)
Definition lower_char (c : ascii) : ascii :=
  let n := nat_of_ascii c in
  if (((65 <=? n) && (n <=? 90))
      || ((192 <=? n) && (n <=? 222) && negb (n =? 215)))%nat
  then ascii_of_nat (n + 32) else c.

Fixpoint lower (s : string) : string :=
  match s with
  | EmptyString => EmptyString
  | String c s' => String (lower_char c) (lower s')
  end.

(** [sub in s] *)
Fixpoint contains (sub s : string) : bool :=
  String.prefix sub s
  || match s with
     | EmptyString => false
     | String _ s' => contains sub s'
     end.

(** [str(n)] for a length. *)
Definition str_of_nat (n : nat) : string :=
  NilEmpty.string_of_uint (Nat.to_uint n).

(** ** The standard library's ISO 8601 codec *)

Class IsoFormat : Type := {
  isoformat : datetime -> string;
  fromisoformat : string -> option datetime;
  fromisoformat_isoformat : forall d, fromisoformat (isoformat d) = Some d;
  isoformat_nonempty : forall d, isoformat d <> ""
}.

(** ** Tasks and stored records *)

Record Task : Type := mkTask {
  id : string;
  name : string;
  priority : string;
  due_date : option datetime;
  category : string;
  status : string;
  description : string;
  created_at : datetime;
  updated_at : datetime
}.

(** A stored record, [Dict[str, Any]]. *)
Abbreviation record := (gmap string pyval) (only parsing).

(** ** The state: the manager object and its environment *)

Record World : Type := mkWorld {
  tasks : list Task;                      (* self.tasks *)
  username : string;                      (* self.username *)
  files : gmap string (list (gmap string pyval));
                                          (* data/tasks/<username>_tasks.json *)
  backups : list (string * datetime * list (gmap string pyval));
                                          (* data/backups/ *)
  writable : bool;                        (* do copy2 and open(.., 'w') succeed *)
  now_at : nat -> datetime;               (* the readings of the clock *)
  ticks : nat;                            (* readings consumed so far *)
  uuid_at : nat -> string;                (* the draws of str(uuid.uuid4()) *)
  draws : nat                             (* draws consumed so far *)
}.

Definition set_tasks (l : list Task) (w : World) : World :=
  mkWorld l (username w) (files w) (backups w) (writable w)
          (now_at w) (ticks w) (uuid_at w) (draws w).

Definition set_files (f : gmap string (list (gmap string pyval))) (w : World) : World :=
  mkWorld (tasks w) (username w) f (backups w) (writable w)
          (now_at w) (ticks w) (uuid_at w) (draws w).

Definition set_backups (b : list (string * datetime * list (gmap string pyval)))
    (w : World) : World :=
  mkWorld (tasks w) (username w) (files w) b (writable w)
          (now_at w) (ticks w) (uuid_at w) (draws w).

Definition set_ticks (n : nat) (w : World) : World :=
  mkWorld (tasks w) (username w) (files w) (backups w) (writable w)
          (now_at w) n (uuid_at w) (draws w).

Definition set_draws (n : nat) (w : World) : World :=
  mkWorld (tasks w) (username w) (files w) (backups w) (writable w)
          (now_at w) (ticks w) (uuid_at w) n.

(** ** Computations: state, exceptions, and the untyped outcome *)

Inductive exn : Type :=
  | KeyError (key : string)
  | AttributeError (msg : string)
  | TypeError (msg : string).

(** [str(e)] *)
Definition str_of_exn (e : exn) : string :=
  match e with
  | KeyError k => "'" ++ k ++ "'"
  | AttributeError m => m
  | TypeError m => m
  end.

Inductive outcome (A : Type) : Type :=
  | Value (a : A) (w : World)
  | Raised (e : exn) (w : World)
  | Untyped.
Arguments Value {A} a w.
Arguments Raised {A} e w.
Arguments Untyped {A}.

Definition M (A : Type) : Type := World -> outcome A.

Definition ret {A} (a : A) : M A := fun w => Value a w.

Definition bind {A B} (m : M A) (k : A -> M B) : M B :=
  fun w =>
    match m w with
    | Value a w' => k a w'
    | Raised e w' => Raised e w'
    | Untyped => Untyped
    end.

Notation "x <- m ;; k" := (bind m (fun x => k))
  (at level 100, m at next level, right associativity).
Notation "m ;;; k" := (bind m (fun _ => k))
  (at level 100, right associativity).

Definition raise {A} (e : exn) : M A := fun w => Raised e w.
Definition untyped {A} : M A := fun _ => Untyped.
Definition get_world : M World := fun w => Value w w.
Definition modify (f : World -> World) : M unit := fun w => Value tt (f w).

(** [try: m  except Exception as e: h e] *)
Definition try_except {A} (m : M A) (h : exn -> M A) : M A :=
  fun w =>
    match m w with
    | Value a w' => Value a w'
    | Raised e w' => h e w'
    | Untyped => Untyped
    end.

(** What a computation returned, and the tasks it left in memory. *)
Definition returned {A} (o : outcome A) : option A :=
  match o with
  | Value a _ => Some a
  | _ => None
  end.

Definition final_tasks {A} (o : outcome A) : option (list Task) :=
  match o with
  | Value _ w | Raised _ w => Some (tasks w)
  | Untyped => None
  end.

(** [datetime.now()] *)
Definition now : M datetime :=
  fun w => Value (now_at w (ticks w)) (set_ticks (S (ticks w)) w).

(** [str(uuid.uuid4())] *)
Definition uuid4 : M string :=
  fun w => Value (uuid_at w (draws w)) (set_draws (S (draws w)) w).

(** An argument that the source annotates [str]. *)
Definition as_str (v : pyval) : M string :=
  match v with
  | PStr s => ret s
  | _ => untyped
  end.

Fixpoint mapM {A B} (f : A -> M B) (l : list A) : M (list B) :=
  match l with
  | [] => ret []
  | x :: l' => y <- f x ;; ys <- mapM f l' ;; ret (y :: ys)
  end.

(** ** Class [Task] *)

(** [Task.__init__]: three readings of the clock, the third only when no
    due date is given. *)
Definition Task_init (name priority : string) (due_date : option datetime)
    (category status description : string) : M Task :=
  u <- uuid4 ;;
  c <- now ;;
  m <- now ;;
  due <- (match due_date with
          | Some d => ret (Some d)
          | None => n <- now ;; ret (Some (n + timedelta_days 7)%Z)
          end) ;;
  ret (mkTask (String.substring 0 8 u) name priority due category status
              description c m).

(** [d.get(key, default)] *)
Definition dict_get (data : gmap string pyval) (key : string) (dflt : pyval) : pyval :=
  default dflt (data !! key).

Section WithCodec.
Context `{IsoFormat}.

(** [Task.to_dict] *)
Definition to_dict (t : Task) : gmap string pyval :=
  list_to_map
    [ ("id", PStr (id t));
      ("name", PStr (name t));
      ("priority", PStr (priority t));
      ("due_date", match due_date t with
                   | Some d => PStr (isoformat d)
                   | None => PNone
                   end);
      ("category", PStr (category t));
      ("status", PStr (status t));
      ("description", PStr (description t));
      ("created_at", PStr (isoformat (created_at t)));
      ("updated_at", PStr (isoformat (updated_at t))) ].

(** [datetime.fromisoformat(v)] under [except (ValueError, TypeError): pass]:
    [None] stands for either exception. *)
Definition try_fromisoformat (v : pyval) : option datetime :=
  match v with
  | PStr s => fromisoformat s
  | _ => None
  end.

(** The date found under [key] of a record: [None] when the entry is
    missing or false, or when parsing it raises. *)
Definition stored_date (data : gmap string pyval) (key : string) : option datetime :=
  if truthy (dict_get data key PNone)
  then try_fromisoformat (dict_get data key PNone)
  else None.

(** [Task.from_dict] *)
Definition from_dict (data : gmap string pyval) : M Task :=
  let due := stored_date data "due_date" in
  n1 <- now ;;
  let created := default n1 (stored_date data "created_at") in
  n2 <- now ;;
  let updated := default n2 (stored_date data "updated_at") in
  nm <- (match data !! "name" with
         | Some v => as_str v
         | None => raise (KeyError "name")
         end) ;;
  pr <- as_str (dict_get data "priority" (PStr "Medium")) ;;
  ca <- as_str (dict_get data "category" (PStr "General")) ;;
  st <- as_str (dict_get data "status" (PStr "Pending")) ;;
  de <- as_str (dict_get data "description" (PStr "")) ;;
  task <- Task_init nm pr due ca st de ;;
  i <- as_str (dict_get data "id" (PStr (id task))) ;;
  ret (mkTask i (name task) (priority task) (due_date task) (category task)
              (status task) (description task) created updated).

(** [Task.is_overdue] *)
Definition is_overdue (t : Task) : M bool :=
  match due_date t with
  | None => ret false
  | Some d =>
      if status t =? "Completed" then ret false
      else n <- now ;; ret (d <? n)%Z
  end.

(** [Task.days_until_due] *)
Definition days_until_due (t : Task) : M (option Z) :=
  match due_date t with
  | None => ret None
  | Some d => n <- now ;; ret (Some (date d - date n)%Z)
  end.

(** ** Class [DatabaseManager] *)

(** [DatabaseManager.create_backup]; the copy is named by the reading of
    the clock. *)
Definition create_backup (user : string) : M unit :=
  w <- get_world ;;
  match files w !! user with
  | None => ret tt
  | Some content =>
      ts <- now ;;
      if writable w
      then modify (fun w => set_backups (backups w ++ [(user, ts, content)]) w)
      else ret tt
  end.

(** The conversion of [datetime] values before [json.dump]. *)
Definition serializable_value (v : pyval) : pyval :=
  match v with
  | PDate d => PStr (isoformat d)
  | _ => v
  end.

(** [DatabaseManager.save_user_tasks] *)
Definition save_user_tasks (user : string) (data : list (gmap string pyval)) : M bool :=
  create_backup user ;;;
  let serializable_tasks := map (fmap serializable_value) data in
  w <- get_world ;;
  if writable w
  then modify (fun w => set_files (<[user := serializable_tasks]> (files w)) w) ;;;
       ret true
  else ret false.

(** The conversion that [load_user_tasks] applies to the value at [key]. *)
Definition loaded_value (key : string) (v : pyval) : pyval :=
  match v with
  | PStr s =>
      if contains "date" (lower key)
      then match fromisoformat s with
           | Some d => PDate d
           | None => v
           end
      else v
  | _ => v
  end.

(** [DatabaseManager.load_user_tasks] *)
Definition load_user_tasks (user : string) : M (list (gmap string pyval)) :=
  w <- get_world ;;
  match files w !! user with
  | None => ret []
  | Some content =>
      ret (map (map_imap (fun k v => Some (loaded_value k v))) content)
  end.

(** The part of [DatabaseManager.get_user_stats] that counts; the float
    [completion_rate] is left out. *)
Definition get_user_stats (user : string) : M (nat * nat * nat) :=
  l <- load_user_tasks user ;;
  match l with
  | [] => ret (0, 0, 0)%nat
  | _ =>
      let total := length l in
      let completed :=
        length (filter (fun r : gmap string pyval =>
                          is_str "Completed" (dict_get r "status" PNone) = true) l) in
      let pending := (total - completed)%nat in
      ret (total, completed, pending)
  end.

(** ** Class [TaskManager] *)

(** [TaskManager.load_tasks] *)
Definition load_tasks : M unit :=
  w <- get_world ;;
  tasks_data <- load_user_tasks (username w) ;;
  l <- mapM from_dict tasks_data ;;
  modify (set_tasks l).

(** [TaskManager.save_tasks] *)
Definition save_tasks : M bool :=
  w <- get_world ;;
  save_user_tasks (username w) (map to_dict (tasks w)).

(** [TaskManager.get_task_by_id]: the first task with that id, together
    with its position.  The objects of [self.tasks] are pairwise distinct
    (each is appended once, right after its construction), so the
    position stands for the identity of the object. *)
Definition get_task_by_id (l : list Task) (task_id : string) : option (nat * Task) :=
  list_find (fun t => id t = task_id) l.

(** [TaskManager.add_task] *)
Definition add_task (nm priority : string) (due_date : option datetime)
    (category description : string) : M (bool * string) :=
  try_except
    (if (nm =? "") || (strip nm =? "")
     then ret (false, "Task name cannot be empty")
     else if (200 <? String.length (strip nm))%nat
     then ret (false, "Task name is too long (max 200 characters)")
     else
       task <- Task_init (strip nm) priority due_date category "Pending"
                         description ;;
       modify (fun w => set_tasks (tasks w ++ [task]) w) ;;;
       ok <- save_tasks ;;
       if ok : bool
       then ret (true, "Task '" ++ nm ++ "' added successfully")
       else
         (* self.tasks.remove(task): the object just appended is the last *)
         modify (fun w => set_tasks (delete (length (tasks w) - 1)%nat (tasks w)) w) ;;;
         ret (false, "Failed to save task to database"))
    (fun e => ret (false, "Error adding task: " ++ str_of_exn e)).

(** Keyword arguments, in the order they were passed. *)
Fixpoint kw_get (key : string) (kw : list (string * pyval)) : option pyval :=
  match kw with
  | [] => None
  | (k, v) :: kw' => if k =? key then Some v else kw_get key kw'
  end.

(** [kwargs[key] = v] for a key that is present. *)
Definition kw_set (key : string) (v : pyval) (kw : list (string * pyval))
    : list (string * pyval) :=
  map (fun p => if fst p =? key then (key, v) else p) kw.

(** The attributes that every instance of [Task] carries. *)
Definition instance_attributes : list string :=
  [ "id"; "name"; "priority"; "due_date"; "category"; "status";
    "description"; "created_at"; "updated_at" ].

(** The attributes found on the class: its methods and what it inherits
    from [object] ([__getstate__] since Python 3.11). *)
Definition class_attributes : list string :=
  [ "__init__"; "__str__"; "to_dict"; "from_dict"; "is_overdue";
    "days_until_due"; "get_priority_color"; "get_status_icon";
    "__class__"; "__delattr__"; "__dict__"; "__dir__"; "__doc__"; "__eq__";
    "__format__"; "__ge__"; "__getattribute__"; "__getstate__"; "__gt__";
    "__hash__"; "__init_subclass__"; "__le__"; "__lt__"; "__module__";
    "__ne__"; "__new__"; "__reduce__"; "__reduce_ex__"; "__repr__";
    "__setattr__"; "__sizeof__"; "__subclasshook__"; "__weakref__" ].

(** [hasattr(task, key)] *)
Definition hasattr (key : string) : bool :=
  existsb (String.eqb key) (instance_attributes ++ class_attributes).

(** [setattr(task, key, v)] where it keeps the task typed as the source
    annotates it: a text for a text attribute, a date for a date attribute.
    Python assigns in the other cases too (a value of another type, or the
    name of a method or of [__dict__], [__class__] and the like); what the
    object is afterwards has no counterpart in [Task], and the answer is
    [None]. *)
Definition setattr (t : Task) (key : string) (v : pyval) : option Task :=
  match v with
  | PStr s =>
      if key =? "id" then
        Some (mkTask s (name t) (priority t) (due_date t) (category t)
                (status t) (description t) (created_at t) (updated_at t))
      else if key =? "name" then
        Some (mkTask (id t) s (priority t) (due_date t) (category t)
                (status t) (description t) (created_at t) (updated_at t))
      else if key =? "priority" then
        Some (mkTask (id t) (name t) s (due_date t) (category t)
                (status t) (description t) (created_at t) (updated_at t))
      else if key =? "category" then
        Some (mkTask (id t) (name t) (priority t) (due_date t) s
                (status t) (description t) (created_at t) (updated_at t))
      else if key =? "status" then
        Some (mkTask (id t) (name t) (priority t) (due_date t) (category t)
                s (description t) (created_at t) (updated_at t))
      else if key =? "description" then
        Some (mkTask (id t) (name t) (priority t) (due_date t) (category t)
                (status t) s (created_at t) (updated_at t))
      else None
  | PDate d =>
      if key =? "due_date" then
        Some (mkTask (id t) (name t) (priority t) (Some d) (category t)
                (status t) (description t) (created_at t) (updated_at t))
      else if key =? "created_at" then
        Some (mkTask (id t) (name t) (priority t) (due_date t) (category t)
                (status t) (description t) d (updated_at t))
      else if key =? "updated_at" then
        Some (mkTask (id t) (name t) (priority t) (due_date t) (category t)
                (status t) (description t) (created_at t) d)
      else None
  | _ => None
  end.

Definition is_None (v : pyval) : bool :=
  match v with
  | PNone => true
  | _ => false
  end.

(** The loop of [update_task] over [kwargs.items()]. *)
Fixpoint update_fields (t : Task) (kw : list (string * pyval)) : option Task :=
  match kw with
  | [] => Some t
  | (key, value) :: kw' =>
      if hasattr key && negb (is_None value)
      then match setattr t key value with
           | Some t' => update_fields t' kw'
           | None => None
           end
      else update_fields t kw'
  end.

(** The validation of [kwargs['name']] in [update_task]: a message when
    the name is rejected, the keyword arguments to go on with otherwise. *)
Definition validate_name (kw : list (string * pyval))
    : M (string + list (string * pyval)) :=
  match kw_get "name" kw with
  | Some v =>
      if truthy v then
        match v with
        | PStr s =>
            let nm := strip s in
            if nm =? "" then ret (inl "Task name cannot be empty")
            else if (200 <? String.length nm)%nat
            then ret (inl "Task name is too long (max 200 characters)")
            else ret (inr (kw_set "name" (PStr nm) kw))
        | _ =>
            raise (AttributeError
                     ("'" ++ type_name v ++ "' object has no attribute 'strip'"))
        end
      else ret (inr kw)
  | None => ret (inr kw)
  end.

Definition set_updated_at (d : datetime) (t : Task) : Task :=
  mkTask (id t) (name t) (priority t) (due_date t) (category t) (status t)
         (description t) (created_at t) d.

(** The body of [update_task] once the task is found at position [i].
    The task is changed in place, that is at its position in
    [self.tasks]. *)
Definition update_found (i : nat) (task : Task) (kw : list (string * pyval))
    : M (bool * string) :=
  r <- validate_name kw ;;
  match r with
  | inl msg => ret (false, msg)
  | inr kw' =>
      match update_fields task kw' with
      | None => untyped
      | Some task' =>
          modify (fun w => set_tasks (<[i := task']> (tasks w)) w) ;;;
          n <- now ;;
          modify (fun w => set_tasks (<[i := set_updated_at n task']> (tasks w)) w) ;;;
          ok <- save_tasks ;;
          if ok : bool
          then ret (true, "Task updated successfully")
          else ret (false, "Failed to save changes")
      end
  end.

(** The names of the parameters of [update_task(self, task_id, **kwargs)]. *)
Definition parameter_name (key : string) : bool :=
  (key =? "self") || (key =? "task_id").

(** The first keyword argument that bears the name of a parameter, if
    there is one. *)
Fixpoint colliding_keyword (kw : list (string * pyval)) : option string :=
  match kw with
  | [] => None
  | (key, _) :: kw' =>
      if parameter_name key then Some key else colliding_keyword kw'
  end.

(** [TaskManager.update_task].  A keyword argument named like a parameter
    makes the call itself raise [TypeError], before the body and its
    [try] are entered. *)
Definition update_task (task_id : string) (kw : list (string * pyval))
    : M (bool * string) :=
  match colliding_keyword kw with
  | Some key =>
      raise (TypeError ("TaskManager.update_task() got multiple values "
                        ++ "for argument '" ++ key ++ "'"))
  | None =>
      try_except
        (w <- get_world ;;
         match get_task_by_id (tasks w) task_id with
         | None => ret (false, "Task not found")
         | Some (i, task) => update_found i task kw
         end)
        (fun e => ret (false, "Error updating task: " ++ str_of_exn e))
  end.

(** [TaskManager.delete_task] *)
Definition delete_task (task_id : string) : M (bool * string) :=
  try_except
    (w <- get_world ;;
     match get_task_by_id (tasks w) task_id with
     | None => ret (false, "Task not found")
     | Some (i, task) =>
         let task_name := name task in
         modify (fun w => set_tasks (delete i (tasks w)) w) ;;;
         ok <- save_tasks ;;
         if ok : bool
         then ret (true, "Task '" ++ task_name ++ "' deleted successfully")
         else
           modify (fun w => set_tasks (tasks w ++ [task]) w) ;;;
           ret (false, "Failed to save changes")
     end)
    (fun e => ret (false, "Error deleting task: " ++ str_of_exn e)).

(** [TaskManager.mark_completed] and [TaskManager.mark_pending] *)
Definition mark_completed (task_id : string) : M (bool * string) :=
  update_task task_id [("status", PStr "Completed")].

Definition mark_pending (task_id : string) : M (bool * string) :=
  update_task task_id [("status", PStr "Pending")].

(** [TaskManager.get_tasks_by_status]; [None] is the default argument. *)
Definition get_tasks_by_status (st : option string) (l : list Task) : list Task :=
  match st with
  | Some s => if s =? "" then l else filter (fun t => status t = s) l
  | None => l
  end.

(** [TaskManager.get_tasks_by_category], [TaskManager.get_tasks_by_priority] *)
Definition get_tasks_by_category (c : string) (l : list Task) : list Task :=
  filter (fun t => category t = c) l.

Definition get_tasks_by_priority (p : string) (l : list Task) : list Task :=
  filter (fun t => priority t = p) l.

(** [TaskManager.get_overdue_tasks]: [is_overdue] is called on every task
    in turn. *)
Fixpoint overdue_among (l : list Task) : M (list Task) :=
  match l with
  | [] => ret []
  | t :: l' =>
      b <- is_overdue t ;;
      r <- overdue_among l' ;;
      ret (if b && negb (status t =? "Completed") then t :: r else r)
  end.

Definition get_overdue_tasks : M (list Task) :=
  w <- get_world ;; overdue_among (tasks w).

(** The test of [get_tasks_due_soon] on one task. *)
Definition due_between (today limit : Z) (t : Task) : bool :=
  match due_date t with
  | Some d =>
      negb (status t =? "Completed")
      && ((today <=? date d)%Z && (date d <=? limit)%Z)
  | None => false
  end.

(** [TaskManager.get_tasks_due_soon] *)
Definition get_tasks_due_soon (days : Z) : M (list Task) :=
  n <- now ;;
  let today := date n in
  let limit := (today + days)%Z in
  w <- get_world ;;
  ret (filter (fun t => due_between today limit t = true) (tasks w)).

(** The result of [TaskManager.get_task_statistics].  The entry
    [completion_rate], a float, is left out. *)
Record Statistics : Type := mkStatistics {
  total_tasks : nat;
  completed_tasks : nat;
  pending_tasks : nat;
  overdue_tasks : nat;
  due_soon_tasks : nat;
  categories : gmap string nat;
  priorities : gmap string nat
}.

(** [d[key] = d.get(key, 0) + 1] *)
Definition count_up (key : string) (d : gmap string nat) : gmap string nat :=
  <[key := (default 0 (d !! key) + 1)%nat]> d.

(** [TaskManager.get_task_statistics] *)
Definition get_task_statistics : M Statistics :=
  w <- get_world ;;
  let total := length (tasks w) in
  let completed := length (get_tasks_by_status (Some "Completed") (tasks w)) in
  let pending := length (get_tasks_by_status (Some "Pending") (tasks w)) in
  od <- get_overdue_tasks ;;
  ds <- get_tasks_due_soon 3 ;;
  let cats := foldl (fun d t => count_up (category t) d) ∅ (tasks w) in
  let prios :=
    foldl (fun d t => count_up (priority t) d)
          (list_to_map [("High", 0%nat); ("Medium", 0%nat); ("Low", 0%nat)])
          (tasks w) in
  ret (mkStatistics total completed pending (length od) (length ds) cats prios).

(** [TaskManager.search_tasks] *)
Definition search_tasks (query : string) (l : list Task) : list Task :=
  let q := strip (lower query) in
  if q =? "" then l
  else filter (fun t => contains q (lower (name t))
                        || contains q (lower (description t))
                        || contains q (lower (category t)) = true) l.

(** [sorted(l, key=key)] with [le] the order of the keys: Python's sort is
    stable, and so is insertion from the right. *)
Fixpoint insert_by {K} (le : K -> K -> bool) (key : Task -> K) (x : Task)
    (l : list Task) : list Task :=
  match l with
  | [] => [x]
  | y :: l' => if le (key x) (key y) then x :: l else y :: insert_by le key x l'
  end.

Definition sorted {K} (le : K -> K -> bool) (key : Task -> K) (l : list Task)
    : list Task :=
  foldr (insert_by le key) [] l.

(** [priority_order.get(p, 3)] *)
Definition priority_order (p : string) : nat :=
  if p =? "High" then 0
  else if p =? "Medium" then 1
  else if p =? "Low" then 2
  else 3.

(** [status_order.get(s, 4)] *)
Definition status_order (s : string) : nat :=
  if s =? "Pending" then 0
  else if s =? "In Progress" then 1
  else if s =? "Completed" then 2
  else if s =? "Cancelled" then 3
  else 4.

(** [TaskManager.sort_tasks]; [reverse=True] sorts by the converse order
    and keeps ties in their original order. *)
Definition sort_tasks (l : list Task) (sort_by : string) : list Task :=
  if sort_by =? "due_date"
  then sorted Z.leb (fun x => default datetime_max (due_date x)) l
  else if sort_by =? "priority"
  then sorted Nat.leb (fun x => priority_order (priority x)) l
  else if sort_by =? "name"
  then sorted String.leb (fun x => lower (name x)) l
  else if sort_by =? "created_at"
  then sorted Z.geb (fun x => created_at x) l
  else if sort_by =? "status"
  then sorted Nat.leb (fun x => status_order (status x)) l
  else l.

(** [TaskManager.clear_completed_tasks] *)
Definition clear_completed_tasks : M (bool * string) :=
  try_except
    (w <- get_world ;;
     let completed := get_tasks_by_status (Some "Completed") (tasks w) in
     match completed with
     | [] => ret (true, "No completed tasks to remove")
     | _ =>
         modify (set_tasks (filter (fun t => status t <> "Completed") (tasks w))) ;;;
         ok <- save_tasks ;;
         if ok : bool
         then ret (true, "Removed " ++ str_of_nat (length completed)
                           ++ " completed tasks")
         else load_tasks ;;; ret (false, "Failed to save changes")
     end)
    (fun e => ret (false, "Error clearing completed tasks: " ++ str_of_exn e)).

End WithCodec.

(** [TaskManager.__init__] *)
Definition TaskManager_init `{IsoFormat} (user : string) : M unit :=
  modify (fun w => mkWorld [] user (files w) (backups w) (writable w)
                     (now_at w) (ticks w) (uuid_at w) (draws w)) ;;;
  load_tasks.

(** ** A codec that satisfies the laws

    The decimal notation of the count of microseconds.  It stands for the
    standard library's codec wherever a concrete state is evaluated;
    nothing below depends on it otherwise. *)

Definition decimal_isoformat (d : datetime) : string :=
  NilEmpty.string_of_int (Z.to_int d).

Definition decimal_fromisoformat (s : string) : option datetime :=
  match NilEmpty.int_of_string s with
  | Some i => Some (Z.of_int i)
  | None => None
  end.

Lemma decimal_roundtrip d : decimal_fromisoformat (decimal_isoformat d) = Some d.
Proof.
  unfold decimal_fromisoformat, decimal_isoformat.
  rewrite NilEmpty.isi. f_equal. apply DecimalZ.of_to.
Qed.

Lemma string_of_uint_empty u : NilEmpty.string_of_uint u = "" -> u = Decimal.Nil.
Proof. destruct u; simpl; congruence. Qed.

Lemma decimal_nonempty d : decimal_isoformat d <> "".
Proof.
  unfold decimal_isoformat. destruct d as [|p|p]; simpl; try discriminate.
  intros E. apply string_of_uint_empty in E.
  by apply DecimalPos.Unsigned.to_uint_nonnil in E.
Qed.

#[global] Instance decimal_codec : IsoFormat :=
  {| isoformat := decimal_isoformat;
     fromisoformat := decimal_fromisoformat;
     fromisoformat_isoformat := decimal_roundtrip;
     isoformat_nonempty := decimal_nonempty |}.

(** ** Predicates of the statements *)

(** The optional entries of a record that the source takes for text. *)
Definition text_fields : list string :=
  [ "priority"; "category"; "status"; "description"; "id" ].

(** Whatever a record holds under one of these keys is text. *)
Definition text_typed (data : gmap string pyval) : Prop :=
  forall key v, key ∈ text_fields -> data !! key = Some v -> exists s, v = PStr s.

(** The text under [key], or [dflt] when the record has no such entry. *)
Definition text_or (data : gmap string pyval) (key dflt : string) : string :=
  match data !! key with
  | Some (PStr s) => s
  | _ => dflt
  end.


(** The attributes of a task that hold text, and those that hold a date. *)
Definition text_attributes : list string :=
  [ "id"; "name"; "priority"; "category"; "status"; "description" ].

Definition date_attributes : list string :=
  [ "due_date"; "created_at"; "updated_at" ].

(** A keyword argument that [update_task] can be called with and that
    leaves the task typed as the source annotates it: its name is no
    parameter of the method, and it is null, or its name is no attribute
    of the task, or it gives a text to a text attribute or a date to a date
    attribute.  The names of methods and of what [object] provides
    ([__dict__], [__class__], ...) are left out, unless the value is null. *)
Definition typed_kwarg (p : string * pyval) : Prop :=
  parameter_name (fst p) = false
  /\ (snd p = PNone
      \/ hasattr (fst p) = false
      \/ (fst p ∈ text_attributes /\ exists s, snd p = PStr s)
      \/ (fst p ∈ date_attributes /\ exists d, snd p = PDate d)).

(** The keyword arguments carry no value other than [None] for [key]. *)
Definition null_for (key : string) (kw : list (string * pyval)) : Prop :=
  Forall (fun p => fst p = key -> snd p = PNone) kw.

(** The record of a task in the user's file, entry by entry. *)
Definition stored_as `{IsoFormat} (t : Task) (r : gmap string pyval) : Prop :=
  r !! "id" = Some (PStr (id t))
  /\ r !! "name" = Some (PStr (name t))
  /\ r !! "priority" = Some (PStr (priority t))
  /\ r !! "due_date" = Some (match due_date t with
                             | Some d => PStr (isoformat d)
                             | None => PNone
                             end)
  /\ r !! "category" = Some (PStr (category t))
  /\ r !! "status" = Some (PStr (status t))
  /\ r !! "description" = Some (PStr (description t))
  /\ r !! "created_at" = Some (PStr (isoformat (created_at t)))
  /\ r !! "updated_at" = Some (PStr (isoformat (updated_at t))).





(** A record of the user's file that [from_dict] turns into a task: it
    has a name, and text wherever text is expected. *)
Definition loadable (r : gmap string pyval) : Prop :=
  (exists nm, r !! "name" = Some (PStr nm)) /\ text_typed r.





(** The sort key of [sort_tasks] for the criterion priority. *)
Definition rank (t : Task) : nat := priority_order (priority t).

(** The task [t] renamed. *)
Definition with_name (nm : string) (t : Task) : Task :=
  mkTask (id t) nm (priority t) (due_date t) (category t) (status t)
         (description t) (created_at t) (updated_at t).

(** ** Concrete states for the examples *)

(** A clock that starts on 2026-01-01T00:00:00 and advances by one
    millisecond at every reading. *)
Definition sample_clock (n : nat) : datetime :=
  (63902822400000000 + 1000 * Z.of_nat n)%Z.

Definition sample_uuids (n : nat) : string :=
  "4f9d2c7" ++ str_of_nat n ++ "-1b3e-4a6c-9d2f-0c1e2a3b4c5d".

(** A manager for user alice; [ok] says whether the disk can be written. *)
Definition sample_world (l : list Task) (ok : bool) : World :=
  mkWorld l "alice" ∅ [] ok sample_clock 0 sample_uuids 0.

(** The same manager after a successful save: the user's file holds
    what [to_dict] gives for the tasks in memory. *)
Definition saved_world (l : list Task) (ok : bool) : World :=
  mkWorld l "alice" {[ "alice" := map to_dict l ]} [] ok
          sample_clock 0 sample_uuids 0.

(** A task that has no due date. *)
Definition someday : Task :=
  mkTask "0a1b2c3d" "Learn to sail" "Low" None "Personal" "Pending" ""
         63902736000000000%Z 63902736000000000%Z.

(** Two records of a hand-edited file: one without the optional fields
    and with a malformed [created_at], one with a malformed due date. *)
Definition bare_record : gmap string pyval :=
  {[ "name" := PStr "Buy milk"; "created_at" := PStr "yesterday" ]}.

Definition vague_record : gmap string pyval :=
  {[ "name" := PStr "Buy milk"; "due_date" := PStr "next week" ]}.

(** Tasks created on 2025-12-31T00:00:00. *)
Definition sample_task (i nm prio st : string) (due : option datetime) : Task :=
  mkTask i nm prio due "General" st "" 63902736000000000%Z 63902736000000000%Z.

Definition milk : Task :=
  sample_task "a1b2c3d4" "Buy milk" "Medium" "Pending" (Some 63903340800000000%Z).

Definition report : Task :=
  sample_task "e5f6a7b8" "Write report" "High" "In Progress"
              (Some 63903340800000000%Z).

Definition taxes : Task :=
  sample_task "c9d0e1f2" "File taxes" "Low" "Completed"
              (Some 63903340800000000%Z).

(** ** Properties *)

Local Open Scope list_scope.

(** *** Evaluating computations *)

Lemma bind_Value {A B} (m : M A) (k : A -> M B) w a w' :
  m w = Value a w' -> bind m k w = k a w'.
Proof. unfold bind. by intros ->. Qed.

Lemma string_eqb_true (s1 s2 : string) : (s1 =? s2) = true <-> s1 = s2.
Proof. apply String.eqb_eq. Qed.

Lemma string_eqb_false (s1 s2 : string) : (s1 =? s2) = false <-> s1 <> s2.
Proof. apply String.eqb_neq. Qed.

(** *** Overdue tasks *)

(** C8. [is_overdue] answers true exactly when the task has a due date, its
    status is not Completed and the due date lies strictly before the
    reading of the clock; a completed task is never overdue. *)
Theorem is_overdue_iff (t : Task) (w : World) :
  exists b w',
    is_overdue t w = Value b w'
    /\ (b = true <->
        exists d, due_date t = Some d /\ status t <> "Completed"
                  /\ (d < now_at w (ticks w))%Z)
    /\ (status t = "Completed" -> b = false).
Proof.
  unfold is_overdue.
  destruct (due_date t) as [d|] eqn:Hd.
  - destruct (status t =? "Completed") eqn:Hs.
    + apply string_eqb_true in Hs.
      exists false, w. split; [done|]. split; [|done].
      split; [done|]. intros (d' & _ & Hne & _). by destruct Hne.
    + apply string_eqb_false in Hs.
      eexists _, _. split; [reflexivity|]. split; [|done].
      rewrite Z.ltb_lt. split.
      * intros Hlt. by exists d.
      * intros (d' & Hd' & _ & Hlt). by simplify_eq.
  - exists false, w. split; [done|]. split; [|done].
    split; [done|]. by intros (d & Hd' & _).
Qed.

(** *** Sorting by priority *)

Section Insertion.
Context {K : Type} (le : K -> K -> bool) (key : Task -> K).

Lemma insert_by_app x (l1 l2 : list Task) :
  Forall (fun y => le (key x) (key y) = false) l1 ->
  insert_by le key x (l1 ++ l2) = l1 ++ insert_by le key x l2.
Proof.
  induction 1 as [|y l1 Hy _ IH]; [done|].
  simpl. by rewrite Hy, IH.
Qed.

Lemma insert_by_front x (l : list Task) :
  Forall (fun y => le (key x) (key y) = true) l ->
  insert_by le key x l = x :: l.
Proof. destruct 1 as [|y l Hy _]; [done|]. simpl. by rewrite Hy. Qed.

Lemma insert_by_between x (l1 l2 : list Task) :
  Forall (fun y => le (key x) (key y) = false) l1 ->
  Forall (fun y => le (key x) (key y) = true) l2 ->
  insert_by le key x (l1 ++ l2) = l1 ++ x :: l2.
Proof. intros H1 H2. by rewrite insert_by_app, insert_by_front. Qed.
End Insertion.

Lemma rank_le_3 t : rank t <= 3.
Proof.
  unfold rank, priority_order.
  repeat (case (_ =? _)); lia.
Qed.

Lemma Forall_filter_rank (P : Task -> Prop) k (l : list Task) :
  (forall y, rank y = k -> P y) -> Forall P (filter (fun t => rank t = k) l).
Proof.
  intros HP. apply Forall_forall. intros y Hy.
  apply list_elem_of_filter in Hy as [Hk _]. by apply HP.
Qed.

Ltac by_rank :=
  rewrite ?Forall_app; repeat split;
  apply Forall_filter_rank; intros ? ->; reflexivity.

Lemma sorted_rank (l : list Task) :
  sorted Nat.leb rank l
  = filter (fun t => rank t = 0) l ++ filter (fun t => rank t = 1) l
    ++ filter (fun t => rank t = 2) l ++ filter (fun t => rank t = 3) l.
Proof.
  induction l as [|x l IH]; [done|].
  unfold sorted in *. simpl. rewrite IH. clear IH.
  pose proof (rank_le_3 x) as Hx.
  assert (Hcases : rank x = 0 \/ rank x = 1 \/ rank x = 2 \/ rank x = 3) by lia.
  destruct Hcases as [E|[E|[E|E]]].
  - rewrite (filter_cons_True _ x l E).
    rewrite !(filter_cons_False _ x l) by (rewrite E; lia).
    apply insert_by_front. rewrite E. by_rank.
  - rewrite (filter_cons_True (fun t => rank t = 1) x l E).
    rewrite !(filter_cons_False _ x l) by (rewrite E; lia).
    apply insert_by_between; rewrite E; by_rank.
  - rewrite (filter_cons_True (fun t => rank t = 2) x l E).
    rewrite !(filter_cons_False _ x l) by (rewrite E; lia).
    rewrite !(assoc_L (++) (filter (fun t => rank t = 0) l)).
    apply insert_by_between; rewrite E; by_rank.
  - rewrite (filter_cons_True (fun t => rank t = 3) x l E).
    rewrite !(filter_cons_False _ x l) by (rewrite E; lia).
    rewrite !(assoc_L (++) _ _ (filter (fun t => rank t = 3) l)).
    rewrite !(assoc_L (++) _ _ (x :: _)).
    apply insert_by_between; rewrite E; by_rank.
Qed.

Lemma rank_High t : rank t = 0 <-> priority t = "High".
Proof.
  unfold rank, priority_order.
  destruct (priority t =? "High") eqn:E1.
  { apply string_eqb_true in E1. done. }
  apply string_eqb_false in E1.
  repeat (case (_ =? _)); split; (lia || done).
Qed.

Lemma rank_Medium t : rank t = 1 <-> priority t = "Medium".
Proof.
  unfold rank, priority_order.
  destruct (priority t =? "High") eqn:E1.
  { apply string_eqb_true in E1. rewrite E1. done. }
  destruct (priority t =? "Medium") eqn:E2.
  { apply string_eqb_true in E2. done. }
  apply string_eqb_false in E2.
  repeat (case (_ =? _)); split; (lia || done).
Qed.

Lemma rank_Low t : rank t = 2 <-> priority t = "Low".
Proof.
  unfold rank, priority_order.
  destruct (priority t =? "High") eqn:E1.
  { apply string_eqb_true in E1. rewrite E1. done. }
  destruct (priority t =? "Medium") eqn:E2.
  { apply string_eqb_true in E2. rewrite E2. done. }
  destruct (priority t =? "Low") eqn:E3.
  { apply string_eqb_true in E3. done. }
  apply string_eqb_false in E3. split; (lia || done).
Qed.

Lemma rank_other t :
  rank t = 3 <->
  priority t <> "High" /\ priority t <> "Medium" /\ priority t <> "Low".
Proof.
  pose proof (rank_High t) as RH. pose proof (rank_Medium t) as RM.
  pose proof (rank_Low t) as RL. pose proof (rank_le_3 t) as R3.
  split.
  - intros E. repeat split; intros E'; intuition lia.
  - intros (H1 & H2 & H3).
    destruct (rank t) as [|[|[|[|n]]]] eqn:E; intuition lia.
Qed.

Lemma filter_insert_by_same {K} (le : K -> K -> bool) (key : Task -> K)
    (P : Task -> Prop) `{!forall t, Decision (P t)} x (l : list Task) :
  P x ->
  (forall y, P y -> le (key x) (key y) = true) ->
  filter P (insert_by le key x l) = x :: filter P l.
Proof.
  intros Px Hle. induction l as [|y l IH]; simpl.
  - by rewrite filter_cons_True.
  - destruct (le (key x) (key y)) eqn:E.
    + by rewrite (filter_cons_True P x).
    + assert (~ P y) as Hy by (intros Py; rewrite (Hle y Py) in E; done).
      by rewrite !(filter_cons_False P y), IH.
Qed.

Lemma filter_insert_by_other {K} (le : K -> K -> bool) (key : Task -> K)
    (P : Task -> Prop) `{!forall t, Decision (P t)} x (l : list Task) :
  ~ P x -> filter P (insert_by le key x l) = filter P l.
Proof.
  intros Px. induction l as [|y l IH]; simpl.
  - by rewrite filter_cons_False.
  - destruct (le (key x) (key y)).
    + by rewrite (filter_cons_False P x).
    + by rewrite !(filter_cons P y), IH.
Qed.

(** C9. Sorting by priority is the stable sort that puts the High tasks
    first, then the Medium ones, then the Low ones (and after them the
    tasks of any other priority); tasks of one priority keep their
    relative order, and [Low, High, Medium] becomes [High, Medium, Low]. *)
Theorem sort_tasks_priority (l : list Task) :
  sort_tasks l "priority"
  = filter (fun t => priority t = "High") l
    ++ filter (fun t => priority t = "Medium") l
    ++ filter (fun t => priority t = "Low") l
    ++ filter (fun t => priority t <> "High" /\ priority t <> "Medium"
                        /\ priority t <> "Low") l
  /\ (forall p, filter (fun t => priority t = p) (sort_tasks l "priority")
                = filter (fun t => priority t = p) l)
  /\ (forall a b c,
        priority a = "Low" -> priority b = "High" -> priority c = "Medium" ->
        sort_tasks [a; b; c] "priority" = [b; c; a]).
Proof.
  assert (Hsort : forall l', sort_tasks l' "priority" = sorted Nat.leb rank l')
    by done.
  split; [|split].
  - rewrite Hsort, sorted_rank.
    rewrite (list_filter_iff _ _ l rank_High), (list_filter_iff _ _ l rank_Medium),
      (list_filter_iff _ _ l rank_Low), (list_filter_iff _ _ l rank_other).
    done.
  - intros p. rewrite Hsort. unfold sorted.
    induction l as [|x l IH]; [done|]. simpl.
    destruct (decide (priority x = p)) as [Hp|Hp].
    + rewrite filter_insert_by_same, IH; [by rewrite filter_cons_True|done|].
      intros y Hy. unfold rank. rewrite Hp, Hy. apply Nat.leb_refl.
    + rewrite filter_insert_by_other, IH; [by rewrite filter_cons_False|done].
  - intros a b c Ha Hb Hc. rewrite Hsort. unfold sorted, rank.
    cbn [foldr insert_by]. rewrite Hb, Hc. cbn. by rewrite Ha, Hb, Hc.
Qed.

(** *** Statistics *)

Lemma is_overdue_total t w : exists b w', is_overdue t w = Value b w'.
Proof.
  unfold is_overdue.
  destruct (due_date t); [destruct (status t =? "Completed")%string|];
    by eexists _, _.
Qed.

Lemma overdue_among_total l w : exists r w', overdue_among l w = Value r w'.
Proof.
  revert w. induction l as [|t l IH]; intros w; simpl.
  - by eexists _, _.
  - destruct (is_overdue_total t w) as (b & w1 & E1).
    destruct (IH w1) as (r & w2 & E2).
    rewrite (bind_Value _ _ _ _ _ E1), (bind_Value _ _ _ _ _ E2).
    by eexists _, _.
Qed.

Lemma disjoint_filters_length (P Q : Task -> Prop)
    `{!forall t, Decision (P t)} `{!forall t, Decision (Q t)} (l : list Task) :
  (forall t, P t -> Q t -> False) ->
  length (filter P l) + length (filter Q l) <= length l
  /\ (length (filter P l) + length (filter Q l) = length l
      <-> Forall (fun t => P t \/ Q t) l).
Proof.
  intros Hdisj. induction l as [|t l [IH1 IH2]]; simpl.
  - split; [lia|]. split; [by constructor|done].
  - rewrite !filter_cons.
    destruct (decide (P t)) as [HP|HP]; destruct (decide (Q t)) as [HQ|HQ];
      simpl; try (by destruct (Hdisj t)).
    + split; [lia|]. rewrite Forall_cons. split.
      * intros E. split; [by left|]. apply IH2. lia.
      * intros [_ Hl]. apply IH2 in Hl. lia.
    + split; [lia|]. rewrite Forall_cons. split.
      * intros E. split; [by right|]. apply IH2. lia.
      * intros [_ Hl]. apply IH2 in Hl. lia.
    + split; [lia|]. rewrite Forall_cons. split.
      * intros E. lia.
      * intros [[?|?] _]; done.
Qed.

(** C1, as the code has it. [get_task_statistics] always answers; its
    pending count is the number of tasks whose status is literally
    Pending, its completed count the number of Completed ones.  The
    pending count is therefore at most total - completed, and equal to it
    exactly when every task is Pending or Completed. *)
Theorem statistics_pending_is_literal (w : World) :
  exists s w',
    get_task_statistics w = Value s w'
    /\ total_tasks s = length (tasks w)
    /\ completed_tasks s
       = length (filter (fun t => status t = "Completed") (tasks w))
    /\ pending_tasks s
       = length (filter (fun t => status t = "Pending") (tasks w))
    /\ pending_tasks s <= total_tasks s - completed_tasks s
    /\ (pending_tasks s = total_tasks s - completed_tasks s
        <-> Forall (fun t => status t = "Pending" \/ status t = "Completed")
                   (tasks w)).
Proof.
  unfold get_task_statistics, get_overdue_tasks, get_tasks_due_soon.
  destruct (overdue_among_total (tasks w) w) as (od & w1 & E1).
  unfold bind, get_world, now, ret. rewrite E1.
  eexists _, _. split; [reflexivity|]. simpl.
  destruct (disjoint_filters_length
              (fun t => status t = "Pending") (fun t => status t = "Completed")
              (tasks w)) as [Hle Hiff].
  { intros t E E'. rewrite E in E'. done. }
  pose proof (length_filter (fun t => status t = "Completed") (tasks w)).
  repeat split; try done; try lia.
  - intros E. apply Hiff. lia.
  - intros Hall. apply Hiff in Hall. lia.
Qed.

(** C1, as the specification states it, fails: one task In Progress is not
    counted as pending, while total - completed is 1. *)
Lemma statistics_pending_not_total_minus_completed :
  let s := returned (get_task_statistics (sample_world [report] true)) in
  pending_tasks <$> s = Some 0
  /\ (fun s => total_tasks s - completed_tasks s) <$> s = Some 1.
Proof. split; vm_compute; reflexivity. Qed.

(** The count that the specification describes is the one of
    [DatabaseManager.get_user_stats], which reads the stored records. *)
Lemma get_user_stats_pending `{IsoFormat} (user : string) (w : World) :
  exists total completed pending w',
    get_user_stats user w = Value (total, completed, pending) w'
    /\ pending = total - completed.
Proof.
  unfold get_user_stats, load_user_tasks, bind, get_world, ret.
  destruct (files w !! user) as [[|r l]|]; simpl; by eexists _, _, _, _.
Qed.

(** *** Persistence *)

Section Persistence.
Context `{IsoFormat}.

(** What [to_dict] writes holds no [datetime] object, so the conversion
    before [json.dump] leaves it as it is. *)
Lemma serializable_to_dict t : serializable_value <$> to_dict t = to_dict t.
Proof.
  unfold to_dict. rewrite <- list_to_map_fmap. f_equal.
  simpl. by destruct (due_date t).
Qed.

Lemma serializable_tasks l :
  map (fmap serializable_value) (map to_dict l) = map to_dict l.
Proof.
  induction l as [|t l IH]; [done|].
  simpl. by rewrite serializable_to_dict, IH.
Qed.

(** [save_tasks] reports whether the disk is writable, leaves the tasks in
    memory alone, and writes them when it can. *)
Lemma save_tasks_spec w :
  exists w',
    save_tasks w = Value (writable w) w'
    /\ tasks w' = tasks w
    /\ username w' = username w
    /\ writable w' = writable w
    /\ now_at w' = now_at w
    /\ (writable w = true ->
        files w' !! username w = Some (map to_dict (tasks w)))
    /\ (writable w = false -> files w' = files w).
Proof.
  unfold save_tasks, save_user_tasks, create_backup, bind, get_world, modify,
    now, ret.
  rewrite serializable_tasks.
  destruct (files w !! username w) as [content|]; simpl;
    destruct (writable w) eqn:Hw; simpl; rewrite ?Hw; simpl;
    eexists; (split; [reflexivity|]); simpl;
    repeat split; try done; intros _; apply lookup_insert_eq.
Qed.

End Persistence.

(** *** Updating a task *)

Section Update.
Context `{IsoFormat}.

(** The validation of the name reads nothing and changes nothing. *)
Lemma validate_name_world kw w :
  match validate_name kw w with
  | Value _ w' | Raised _ w' => w' = w
  | Untyped => False
  end.
Proof.
  unfold validate_name.
  destruct (kw_get "name" kw) as [v|]; [|done].
  destruct (truthy v); [|done].
  destruct v; try done.
  destruct (strip s =? ""); [done|].
  by destruct (200 <? String.length (strip s))%nat.
Qed.

(** What [update_task] does with a task that it finds. *)
Lemma update_task_found w tid kw i t :
  get_task_by_id (tasks w) tid = Some (i, t) ->
  colliding_keyword kw = None ->
  match validate_name kw w with
  | Value (inl msg) _ => update_task tid kw w = Value (false, msg) w
  | Value (inr kw') _ =>
      match update_fields t kw' with
      | None => update_task tid kw w = Untyped
      | Some t' =>
          exists w',
            update_task tid kw w
            = Value (if writable w then (true, "Task updated successfully")
                     else (false, "Failed to save changes")) w'
            /\ tasks w' = <[i := set_updated_at (now_at w (ticks w)) t']> (tasks w)
            /\ (writable w = true ->
                files w' !! username w = Some (map to_dict (tasks w')))
            /\ (writable w = false -> files w' = files w)
            /\ username w' = username w /\ writable w' = writable w
      end
  | Raised e _ =>
      update_task tid kw w
      = Value (false, ("Error updating task: " ++ str_of_exn e)%string) w
  | Untyped => False
  end.
Proof.
  intros Hfind Hkw.
  pose proof (validate_name_world kw w) as Hw.
  assert (Hstep : update_task tid kw w
                  = try_except (update_found i t kw)
                      (fun e => ret (false, ("Error updating task: "
                                              ++ str_of_exn e)%string)) w).
  { unfold update_task. rewrite Hkw. unfold try_except.
    unfold bind at 1. unfold get_world at 1. by rewrite Hfind. }
  destruct (validate_name kw w) as [[msg|kw'] w1|e w1|] eqn:Ev; try done;
    subst w1; [|destruct (update_fields t kw') as [t'|] eqn:Eu|];
    rewrite Hstep; unfold try_except, update_found; unfold bind at 1;
    rewrite Ev; rewrite ?Eu; try reflexivity.
  unfold bind at 1. unfold modify at 1.
  unfold bind at 1. unfold now at 1.
  unfold bind at 1. unfold modify at 1.
  simpl. rewrite list_insert_insert_eq.
  match goal with
  | |- context [bind save_tasks _ ?w2] =>
      destruct (save_tasks_spec w2) as (w' & Es & Ht & Hu & Hwr & _ & Hf & Hg);
      rewrite (bind_Value _ _ _ _ _ Es)
  end.
  simpl in *. exists w'. destruct (writable w) eqn:Ew; simpl.
  - split; [done|]. split; [done|]. split; [|done].
    intros _. rewrite Ht. by apply Hf.
  - split; [done|]. split; [done|]. split; [done|]. split; [|done].
    intros _. by apply Hg.
Qed.

Lemma update_task_missing w tid kw :
  get_task_by_id (tasks w) tid = None ->
  colliding_keyword kw = None ->
  update_task tid kw w = Value (false, "Task not found") w.
Proof.
  intros Hfind Hkw. unfold update_task. rewrite Hkw. unfold try_except.
  unfold bind at 1. unfold get_world at 1. by rewrite Hfind.
Qed.

End Update.

(** *** What the loop over the keyword arguments can change *)


Lemma setattr_due_date t key v t' :
  setattr t key v = Some t' -> due_date t <> None -> due_date t' <> None.
Proof.
  unfold setattr. intros E Hdue.
  destruct v; try done;
    repeat match type of E with
           | (if ?k =? ?s then _ else _) = _ => destruct (k =? s)
           end; by simplify_eq.
Qed.


Lemma update_fields_due_date t kw t' :
  update_fields t kw = Some t' -> due_date t <> None -> due_date t' <> None.
Proof.
  revert t. induction kw as [|[k v] kw IH]; intros t; simpl.
  - by intros [= <-].
  - destruct (hasattr k && negb (is_None v)); [|apply IH].
    destruct (setattr t k v) as [t1|] eqn:Es; [|done].
    intros Eu Hdue. apply (IH _ Eu). by apply (setattr_due_date _ _ _ _ Es).
Qed.



Lemma validate_name_inr kw w kw' w' :
  validate_name kw w = Value (inr kw') w' ->
  kw' = kw \/ exists nm, kw' = kw_set "name" (PStr nm) kw.
Proof.
  unfold validate_name.
  destruct (kw_get "name" kw) as [v|]; [|intros [= <- _]; by left].
  destruct (truthy v); [|intros [= <- _]; by left].
  destruct v; try done.
  destruct (strip s =? ""); [done|].
  destruct (200 <? String.length (strip s))%nat; [done|].
  intros [= <- _]. right. by eexists.
Qed.

(** *** Positions and ids *)


Lemma get_task_by_id_lookup l tid i t :
  get_task_by_id l tid = Some (i, t) -> l !! i = Some t /\ id t = tid.
Proof. intros Hf. apply list_find_Some in Hf as (Hi & Hid & _). done. Qed.

(** *** Updating the name to the empty string *)

(** An empty name is false in Python, so the validation is not entered;
    the loop then stores it, [updated_at] is refreshed and the tasks are
    saved.  Only a name made of white space is rejected. *)
Lemma update_task_empty_name `{IsoFormat} (w : World) (tid : string) i t :
  get_task_by_id (tasks w) tid = Some (i, t) ->
  exists w',
    update_task tid [("name", PStr "")] w
    = Value (if writable w then (true, "Task updated successfully")
             else (false, "Failed to save changes")) w'
    /\ tasks w'
       = <[i := set_updated_at (now_at w (ticks w)) (with_name "" t)]> (tasks w).
Proof.
  intros Hfind.
  pose proof (update_task_found w tid [("name", PStr "")] i t Hfind eq_refl)
    as Hspec.
  simpl in Hspec. destruct Hspec as (w' & E & Ht & _). by exists w'.
Qed.

Lemma update_task_blank_name `{IsoFormat} (w : World) (tid : string) i t :
  get_task_by_id (tasks w) tid = Some (i, t) ->
  update_task tid [("name", PStr "   ")] w
  = Value (false, "Task name cannot be empty") w.
Proof.
  intros Hfind.
  exact (update_task_found w tid [("name", PStr "   ")] i t Hfind eq_refl).
Qed.

(** C3 fails on the code. Updating the name of the task Buy milk to the
    empty string reports success; afterwards the name is empty and
    [updated_at] is the reading of the clock, not the former value. *)
Theorem update_task_accepts_empty_name :
  let o := update_task "a1b2c3d4" [("name", PStr "")]
             (sample_world [milk] true) in
  returned o = Some (true, "Task updated successfully")
  /\ map name <$> final_tasks o = Some [""]
  /\ map updated_at <$> final_tasks o = Some [63902822400000000%Z]
  /\ name milk = "Buy milk"
  /\ updated_at milk = 63902736000000000%Z.
Proof. repeat split; vm_compute; reflexivity. Qed.

(** *** The constructor *)

(** The constructor sets the due date seven days after its third reading
    of the clock; [created_at] is the first reading. *)
Lemma Task_init_default_due_date nm pr ca st de (w : World) :
  exists t w',
    Task_init nm pr None ca st de w = Value t w'
    /\ due_date t = Some (now_at w (ticks w + 2) + timedelta_days 7)%Z
    /\ created_at t = now_at w (ticks w)
    /\ name t = nm
    /\ tasks w' = tasks w /\ username w' = username w
    /\ writable w' = writable w /\ files w' = files w.
Proof.
  eexists _, _. split; [reflexivity|]. simpl.
  replace (ticks w + 2) with (S (S (ticks w))) by lia. done.
Qed.

(** *** Leaving a keyword argument out *)



Lemma kw_get_Some key (l : list (string * pyval)) v :
  kw_get key l = Some v -> (key, v) ∈ l.
Proof.
  induction l as [|[k v'] l IH]; [done|]. simpl.
  destruct (k =? key)%string eqn:E.
  - apply string_eqb_true in E. intros [= ->]. subst. apply list_elem_of_here.
  - intros Hl. apply list_elem_of_further. by apply IH.
Qed.







(** *** A save that fails *)

Lemma delete_last (l : list Task) t : delete (length (l ++ [t]) - 1) (l ++ [t]) = l.
Proof.
  rewrite length_app. simpl.
  replace (length l + 1 - 1) with (length l + 0) by lia.
  induction l as [|x l IH]; [done|]. simpl. by rewrite IH.
Qed.

(** [add_task] does restore the collection when the save fails: the task
    it appended is the one it removes. *)
Lemma add_task_restores `{IsoFormat} (w : World) nm pr due ca de :
  writable w = false ->
  exists msg w',
    add_task nm pr due ca de w = Value (false, msg) w'
    /\ tasks w' = tasks w.
Proof.
  intros Hw. unfold add_task, try_except.
  destruct ((nm =? "") || (strip nm =? ""))%string; [by eexists _, _|].
  destruct (200 <? String.length (strip nm))%nat; [by eexists _, _|].
  unfold bind at 1.
  assert (exists t w1, Task_init (strip nm) pr due ca "Pending" de w = Value t w1
                       /\ tasks w1 = tasks w /\ writable w1 = writable w)
    as (t & w1 & -> & Ht1 & Hw1).
  { destruct due; eexists _, _; (split; [reflexivity|done]). }
  unfold bind at 1. unfold modify at 1.
  match goal with
  | |- context [bind save_tasks _ ?w2] =>
      destruct (save_tasks_spec w2) as (w' & Es & Ht & _);
      rewrite (bind_Value _ _ _ _ _ Es)
  end.
  simpl in *. rewrite Hw1, Hw. simpl.
  eexists _, _. split; [reflexivity|]. simpl.
  by rewrite Ht, delete_last.
Qed.

(** C2 fails on the code. With a disk that cannot be written:
    [update_task] reports failure and leaves the new status and the new
    [updated_at] in memory; [delete_task] reports failure and puts the
    task back at the end of the collection, not where it was;
    [clear_completed_tasks] reports failure and reloads tasks whose due
    date and [updated_at] are not those held before the call. *)
Theorem failed_save_is_not_rolled_back :
  (let o := update_task "a1b2c3d4" [("status", PStr "Completed")]
              (sample_world [milk] false) in
   returned o = Some (false, "Failed to save changes")
   /\ final_tasks o
      = Some [mkTask "a1b2c3d4" "Buy milk" "Medium"
                (Some 63903340800000000%Z) "General" "Completed" ""
                63902736000000000%Z 63902822400000000%Z]
   /\ status milk = "Pending"
   /\ updated_at milk = 63902736000000000%Z)
  /\ (let o := delete_task "a1b2c3d4" (sample_world [milk; report] false) in
      returned o = Some (false, "Failed to save changes")
      /\ final_tasks o = Some [report; milk])
  /\ (let o := clear_completed_tasks (saved_world [milk; taxes] false) in
      returned o = Some (false, "Failed to save changes")
      /\ map due_date <$> final_tasks o
         = Some [Some 63903427200005000%Z; Some 63903427200010000%Z]
      /\ map updated_at <$> final_tasks o
         = Some [63902822400002000%Z; 63902822400007000%Z]
      /\ map due_date [milk; taxes]
         = [Some 63903340800000000%Z; Some 63903340800000000%Z]
      /\ map updated_at [milk; taxes]
         = [63902736000000000%Z; 63902736000000000%Z]).
Proof. repeat split; vm_compute; reflexivity. Qed.

(** *** Reading a stored record *)

Section Records.
Context `{IsoFormat}.

Lemma text_typed_get data key dflt :
  text_typed data -> key ∈ text_fields ->
  dict_get data key (PStr dflt) = PStr (text_or data key dflt).
Proof.
  intros Htyped Hkey. unfold dict_get, text_or.
  destruct (data !! key) as [v|] eqn:E; [|done].
  destruct (Htyped key v Hkey E) as [s ->]. done.
Qed.

(** A malformed text under a date key gives no date. *)
Lemma stored_date_malformed data key s :
  data !! key = Some (PStr s) -> fromisoformat s = None ->
  stored_date data key = None.
Proof.
  intros E Hs. unfold stored_date, dict_get. rewrite E. simpl.
  rewrite Hs. by destruct (negb _).
Qed.

Lemma stored_date_missing data key :
  data !! key = None -> stored_date data key = None.
Proof. intros E. unfold stored_date, dict_get. by rewrite E. Qed.

(** What [from_dict] builds from a record that has a name and holds text
    where text is expected. *)
Lemma from_dict_spec data w nm :
  data !! "name" = Some (PStr nm) ->
  text_typed data ->
  exists w',
    from_dict data w
    = Value (mkTask
               (text_or data "id" (String.substring 0 8 (uuid_at w (draws w))))
               nm
               (text_or data "priority" "Medium")
               (Some (default (now_at w (ticks w + 4) + timedelta_days 7)%Z
                              (stored_date data "due_date")))
               (text_or data "category" "General")
               (text_or data "status" "Pending")
               (text_or data "description" "")
               (default (now_at w (ticks w)) (stored_date data "created_at"))
               (default (now_at w (ticks w + 1)) (stored_date data "updated_at")))
            w'
    /\ tasks w' = tasks w /\ username w' = username w /\ files w' = files w
    /\ writable w' = writable w /\ now_at w' = now_at w.
Proof.
  intros Hname Htyped.
  assert (forall key dflt, key ∈ text_fields ->
            dict_get data key (PStr dflt) = PStr (text_or data key dflt)) as Hget
    by (intros; by apply text_typed_get).
  unfold from_dict, Task_init, bind, now, uuid4, ret. rewrite Hname.
  rewrite !Hget by (unfold text_fields; set_solver).
  cbn [as_str ret].
  replace (ticks w + 4) with (S (S (S (S (ticks w))))) by lia.
  replace (ticks w + 1) with (S (ticks w)) by lia.
  destruct (stored_date data "due_date") as [d|]; cbn;
    rewrite !Hget by (unfold text_fields; set_solver); cbn;
    eexists; (split; [reflexivity|done]).
Qed.

(** A record without a name is not loaded: [data['name']] raises. *)
Lemma from_dict_without_name data w :
  data !! "name" = None ->
  exists w', from_dict data w = Raised (KeyError "name") w' /\ tasks w' = tasks w.
Proof.
  intros Hname. unfold from_dict, bind, now, raise. rewrite Hname.
  by eexists.
Qed.

End Records.

Section RecordClaims.
Context `{IsoFormat}.

(** C6, as the code has it. A record with a name (and text where text is
    expected) is always loaded.  The missing optional fields get their
    defaults: Medium, General, Pending and the empty description.  A
    malformed date string gives the reading of the clock for [created_at]
    and for [updated_at]; for the due date it gives what the constructor
    sets when it is passed none, seven days after its reading of the
    clock, and not null. *)
Theorem from_dict_defaults (data : gmap string pyval) (w : World) (nm : string) :
  data !! "name" = Some (PStr nm) ->
  text_typed data ->
  exists t w',
    from_dict data w = Value t w'
    /\ name t = nm
    /\ (data !! "priority" = None -> priority t = "Medium")
    /\ (data !! "category" = None -> category t = "General")
    /\ (data !! "status" = None -> status t = "Pending")
    /\ (data !! "description" = None -> description t = "")
    /\ (forall s, data !! "created_at" = Some (PStr s) ->
                  fromisoformat s = None ->
                  created_at t = now_at w (ticks w))
    /\ (forall s, data !! "updated_at" = Some (PStr s) ->
                  fromisoformat s = None ->
                  updated_at t = now_at w (ticks w + 1))
    /\ (forall s, data !! "due_date" = Some (PStr s) ->
                  fromisoformat s = None ->
                  due_date t
                  = Some (now_at w (ticks w + 4) + timedelta_days 7)%Z).
Proof.
  intros Hname Htyped.
  destruct (from_dict_spec data w nm Hname Htyped) as (w' & E & _).
  eexists _, w'. split; [exact E|]. simpl. unfold text_or.
  split; [done|].
  repeat split; try (by intros ->);
    intros s Hs Hbad; by rewrite (stored_date_malformed _ _ _ Hs Hbad).
Qed.

Lemma to_dict_text_typed t : text_typed (to_dict t).
Proof.
  intros key v Hkey. unfold text_fields in Hkey.
  repeat (apply elem_of_cons in Hkey as [->|Hkey]);
    [..|by apply elem_of_nil in Hkey];
    unfold to_dict; simpl; intros Hv; simplify_map_eq; by eexists.
Qed.

Lemma stored_date_isoformat data key d :
  data !! key = Some (PStr (isoformat d)) -> stored_date data key = Some d.
Proof.
  intros E. unfold stored_date, dict_get. rewrite E. simpl.
  pose proof (isoformat_nonempty d) as Hne.
  apply string_eqb_false in Hne as ->. simpl. apply fromisoformat_isoformat.
Qed.

Lemma stored_date_None data key :
  data !! key = Some PNone -> stored_date data key = None.
Proof. intros E. unfold stored_date, dict_get. by rewrite E. Qed.

(** C7, as the code has it. Serializing a task and reading the record
    back always succeeds and gives back the id, the name, the priority,
    the category, the status, the description, [created_at] and
    [updated_at] exactly.  A task with a due date comes back as it was; a
    task without one comes back with the due date that the constructor
    sets, seven days after its reading of the clock. *)
Theorem to_dict_from_dict (t : Task) (w : World) :
  exists t' w',
    from_dict (to_dict t) w = Value t' w'
    /\ id t' = id t /\ name t' = name t /\ priority t' = priority t
    /\ category t' = category t /\ status t' = status t
    /\ description t' = description t
    /\ created_at t' = created_at t /\ updated_at t' = updated_at t
    /\ (forall d, due_date t = Some d -> t' = t)
    /\ (due_date t = None ->
        due_date t' = Some (now_at w (ticks w + 4) + timedelta_days 7)%Z).
Proof.
  assert (Hname : to_dict t !! "name" = Some (PStr (name t)))
    by (unfold to_dict; simpl; by simplify_map_eq).
  destruct (from_dict_spec (to_dict t) w (name t) Hname (to_dict_text_typed t))
    as (w' & E & _).
  assert (Hid : text_or (to_dict t) "id"
                  (String.substring 0 8 (uuid_at w (draws w))) = id t)
    by (unfold text_or, to_dict; simpl; by simplify_map_eq).
  assert (Hpr : text_or (to_dict t) "priority" "Medium" = priority t)
    by (unfold text_or, to_dict; simpl; by simplify_map_eq).
  assert (Hca : text_or (to_dict t) "category" "General" = category t)
    by (unfold text_or, to_dict; simpl; by simplify_map_eq).
  assert (Hst : text_or (to_dict t) "status" "Pending" = status t)
    by (unfold text_or, to_dict; simpl; by simplify_map_eq).
  assert (Hde : text_or (to_dict t) "description" "" = description t)
    by (unfold text_or, to_dict; simpl; by simplify_map_eq).
  assert (Hcr : stored_date (to_dict t) "created_at" = Some (created_at t)).
  { apply stored_date_isoformat. unfold to_dict; simpl; by simplify_map_eq. }
  assert (Hup : stored_date (to_dict t) "updated_at" = Some (updated_at t)).
  { apply stored_date_isoformat. unfold to_dict; simpl; by simplify_map_eq. }
  assert (Hdu : stored_date (to_dict t) "due_date" = due_date t).
  { destruct (due_date t) as [d|] eqn:Ed.
    - apply stored_date_isoformat. unfold to_dict; simpl.
      rewrite Ed. by simplify_map_eq.
    - apply stored_date_None. unfold to_dict; simpl.
      rewrite Ed. by simplify_map_eq. }
  rewrite Hid, Hpr, Hca, Hst, Hde, Hcr, Hup, Hdu in E.
  eexists _, w'. split; [exact E|]. simpl.
  repeat split; try done.
  - intros d Hd. rewrite Hd. simpl. destruct t. simpl in *. by subst.
  - by intros ->.
Qed.

End RecordClaims.

Lemma from_dict_defaults_witness :
  (bare_record !! "name" = Some (PStr "Buy milk") /\ text_typed bare_record)
  /\ exists t w',
       from_dict bare_record (sample_world [] true) = Value t w'
       /\ name t = "Buy milk" /\ priority t = "Medium"
       /\ category t = "General" /\ status t = "Pending"
       /\ description t = ""
       /\ created_at t = 63902822400000000%Z.
Proof.
  assert (Hname : bare_record !! "name" = Some (PStr "Buy milk")) by reflexivity.
  assert (Htyped : text_typed bare_record).
  { intros key v Hkey. unfold text_fields in Hkey.
    repeat (apply elem_of_cons in Hkey as [->|Hkey]);
      [..|by apply elem_of_nil in Hkey]; intros Hv; by vm_compute in Hv. }
  split; [done|].
  destruct (from_dict_defaults bare_record (sample_world [] true) "Buy milk"
              Hname Htyped)
    as (t & w' & E & Hn & Hp & Hc & Hs & Hd & Hcr & _).
  exists t, w'. split; [exact E|].
  split; [exact Hn|]. split; [by apply Hp|]. split; [by apply Hc|].
  split; [by apply Hs|]. split; [by apply Hd|].
  by apply (Hcr "yesterday").
Defined.

(** C6, as the specification states it, fails for the due date: a record
    whose due date cannot be parsed is loaded with a due date, seven days
    after the fifth reading of the clock. *)
Lemma from_dict_malformed_due_date_is_not_null :
  fromisoformat "next week" = None
  /\ due_date <$> returned (from_dict vague_record (sample_world [] true))
     = Some (Some 63903427200004000%Z).
Proof. split; vm_compute; reflexivity. Qed.

(** C7, as the specification states it, fails for a task without a due
    date: the task read back has one. *)
Lemma to_dict_from_dict_adds_due_date :
  due_date someday = None
  /\ due_date <$> returned (from_dict (to_dict someday) (sample_world [] true))
     = Some (Some 63903427200004000%Z).
Proof. split; vm_compute; reflexivity. Qed.

Lemma to_dict_from_dict_witness :
  exists w',
    from_dict (to_dict milk) (sample_world [] true) = Value milk w'.
Proof.
  destruct (to_dict_from_dict milk (sample_world [] true))
    as (t' & w' & E & _ & _ & _ & _ & _ & _ & _ & _ & Hsame & _).
  exists w'. rewrite (Hsame _ eq_refl) in E. exact E.
Defined.

(** *** Keyword arguments that keep the task typed *)

Lemma typed_colliding_keyword (kw : list (string * pyval)) :
  Forall typed_kwarg kw -> colliding_keyword kw = None.
Proof.
  induction 1 as [|[k v] kw [Hk _] _ IH]; [done|].
  simpl in *. by rewrite Hk.
Qed.

Lemma typed_setattr t k v :
  typed_kwarg (k, v) -> hasattr k && negb (is_None v) = true ->
  is_Some (setattr t k v).
Proof.
  intros [_ Hty] Hset. apply andb_true_iff in Hset as [Hattr Hnone].
  simpl in Hty. destruct Hty as [->|[Hno|[[Hk [s ->]]|[Hk [d ->]]]]].
  - done.
  - congruence.
  - unfold text_attributes in Hk.
    repeat (apply elem_of_cons in Hk as [->|Hk]); [..|by apply elem_of_nil in Hk];
      by eexists.
  - unfold date_attributes in Hk.
    repeat (apply elem_of_cons in Hk as [->|Hk]); [..|by apply elem_of_nil in Hk];
      by eexists.
Qed.

Lemma typed_update_fields t (kw : list (string * pyval)) :
  Forall typed_kwarg kw -> is_Some (update_fields t kw).
Proof.
  intros Hkw. revert t. induction Hkw as [|[k v] kw Hk _ IH]; intros t; simpl.
  - by eexists.
  - destruct (hasattr k && negb (is_None v)) eqn:E; [|apply IH].
    destruct (typed_setattr t k v Hk E) as [t1 ->]. apply IH.
Qed.

Lemma typed_kw_set nm (kw : list (string * pyval)) :
  Forall typed_kwarg kw -> Forall typed_kwarg (kw_set "name" (PStr nm) kw).
Proof.
  unfold kw_set. intros Hkw. apply Forall_fmap.
  eapply Forall_impl; [exact Hkw|]. intros [k v] Hk. simpl.
  destruct (k =? "name")%string eqn:E; [|exact Hk].
  split; [done|]. simpl. right. right. left.
  split; [|by eexists]. unfold text_attributes. set_solver.
Qed.

(** With such arguments the validation of the name raises nothing. *)
Lemma typed_validate_name (kw : list (string * pyval)) w :
  Forall typed_kwarg kw ->
  (exists msg, validate_name kw w = Value (inl msg) w)
  \/ (exists kw', validate_name kw w = Value (inr kw') w
                  /\ Forall typed_kwarg kw'
                  /\ (kw' = kw \/ exists nm, kw' = kw_set "name" (PStr nm) kw)).
Proof.
  intros Hkw. unfold validate_name.
  destruct (kw_get "name" kw) as [v|] eqn:E; [|right; eexists; eauto].
  apply kw_get_Some in E. rewrite Forall_forall in Hkw.
  destruct (Hkw _ E) as [_ Hty]. simpl in Hty.
  rewrite <- Forall_forall in Hkw.
  destruct Hty as [->|[Hno|[[_ [s ->]]|[Hk _]]]].
  - right; eexists; eauto.
  - by vm_compute in Hno.
  - simpl. destruct (negb (s =? "")%string); [|right; eexists; eauto].
    destruct (strip s =? "")%string; [left; by eexists|].
    destruct (200 <? String.length (strip s))%nat; [left; by eexists|].
    right. eexists. split; [done|]. split; [by apply typed_kw_set|].
    right. by eexists.
  - unfold date_attributes in Hk.
    repeat (apply elem_of_cons in Hk as [Hk|Hk]; [discriminate|]).
    by apply elem_of_nil in Hk.
Qed.

(** What [update_task] does when its keyword arguments are of that kind:
    it answers, and either it has changed nothing, or it has put in the
    place of the task that it found the task that the loop made of it,
    with a new [updated_at]. *)
Lemma update_task_typed `{IsoFormat} (w : World) (tid : string)
    (kw : list (string * pyval)) :
  Forall typed_kwarg kw ->
  exists r w',
    update_task tid kw w = Value r w'
    /\ username w' = username w /\ writable w' = writable w
    /\ ((w' = w /\ fst r = false)
        \/ exists i t kw' t',
             get_task_by_id (tasks w) tid = Some (i, t)
             /\ (kw' = kw \/ exists nm, kw' = kw_set "name" (PStr nm) kw)
             /\ update_fields t kw' = Some t'
             /\ tasks w' = <[i := set_updated_at (now_at w (ticks w)) t']> (tasks w)
             /\ r = (if writable w then (true, "Task updated successfully")
                     else (false, "Failed to save changes"))
             /\ (writable w = true ->
                 files w' !! username w = Some (map to_dict (tasks w')))
             /\ (writable w = false -> files w' = files w)).
Proof.
  intros Hkw. pose proof (typed_colliding_keyword kw Hkw) as Hcol.
  destruct (get_task_by_id (tasks w) tid) as [[i t]|] eqn:Hfind.
  - pose proof (update_task_found w tid kw i t Hfind Hcol) as Hspec.
    destruct (typed_validate_name kw w Hkw) as [[msg Ev]|(kw' & Ev & Hkw' & Hrel)];
      rewrite Ev in Hspec.
    + eexists _, w. split; [exact Hspec|]. split; [done|]. split; [done|].
      by left.
    + destruct (typed_update_fields t kw' Hkw') as [t' Eu].
      rewrite Eu in Hspec.
      destruct Hspec as (w' & E & Ht & Hf & Hg & Hu & Hwr).
      eexists _, w'. split; [exact E|]. split; [done|]. split; [done|].
      right. exists i, t, kw', t'. by repeat split.
  - eexists _, w. split; [by apply update_task_missing|].
    split; [done|]. split; [done|]. by left.
Qed.

(** What [to_dict] writes, entry by entry. *)
Lemma stored_as_to_dict `{IsoFormat} (t : Task) : stored_as t (to_dict t).
Proof.
  unfold stored_as, to_dict. simpl.
  repeat split; by simplify_map_eq.
Qed.

Lemma stored_as_tasks `{IsoFormat} (l : list Task) :
  Forall2 stored_as l (map to_dict l).
Proof.
  induction l as [|t l IH]; [by constructor|].
  simpl. constructor; [apply stored_as_to_dict|done].
Qed.

(** *** The id of a task under the operations of the manager *)



Lemma get_completed_nil (l : list Task) :
  get_tasks_by_status (Some "Completed") l = []
  <-> Forall (fun t => status t <> "Completed") l.
Proof.
  simpl. induction l as [|t l IH]; [done|].
  rewrite filter_cons, Forall_cons. destruct (decide (status t = "Completed")).
  - split; [done|]. by intros [? _].
  - rewrite IH. tauto.
Qed.





(** *** The reload after a failed save *)

Lemma loaded_value_other `{IsoFormat} key v :
  contains "date" (lower key) = false -> loaded_value key v = v.
Proof. intros Hk. unfold loaded_value. destruct v; try done. by rewrite Hk. Qed.

Lemma loaded_lookup `{IsoFormat} key (r : gmap string pyval) :
  contains "date" (lower key) = false ->
  map_imap (fun k v => Some (loaded_value k v)) r !! key = r !! key.
Proof.
  intros Hk. rewrite map_lookup_imap.
  destruct (r !! key) as [v|]; [|done].
  change (Some (loaded_value key v) = Some v).
  by rewrite loaded_value_other.
Qed.

Lemma loadable_loaded `{IsoFormat} (r : gmap string pyval) :
  loadable r -> loadable (map_imap (fun k v => Some (loaded_value k v)) r).
Proof.
  intros [[nm Hnm] Hty]. split.
  - exists nm. by rewrite loaded_lookup.
  - intros key v Hkey. unfold text_fields in Hkey.
    repeat (apply elem_of_cons in Hkey as [->|Hkey]);
      [..|by apply elem_of_nil in Hkey];
      rewrite loaded_lookup by reflexivity; apply Hty;
      unfold text_fields; rewrite !elem_of_cons; tauto.
Qed.







(** A [clear_completed_tasks] whose save fails is another matter: it
    loads the user's file again, and a record stored without an id is
    given a new one at every load. *)
Lemma failed_clear_reloads_with_new_id :
  let w := mkWorld [] "alice"
             {[ "alice" := [ {[ "name" := PStr "File taxes";
                                "status" := PStr "Completed" ]} ] ]}
             [] false sample_clock 0 sample_uuids 0 in
  map id <$> final_tasks (TaskManager_init "alice" w) = Some ["4f9d2c70"]
  /\ map id <$> final_tasks ((TaskManager_init "alice" ;;;
                              clear_completed_tasks) w)
     = Some ["4f9d2c71"]
  /\ returned ((TaskManager_init "alice" ;;; clear_completed_tasks) w)
     = Some (false, "Failed to save changes").
Proof. repeat split; vm_compute; reflexivity. Qed.

(** *** The due date *)

Lemma setattr_keeps_due_date t key v t' :
  setattr t key v = Some t' -> key <> "due_date" -> due_date t' = due_date t.
Proof.
  unfold setattr. intros E Hkey.
  destruct v; try done;
    repeat match type of E with
           | (if ?k =? ?s then _ else _) = _ =>
               let Ek := fresh in
               destruct (k =? s)%string eqn:Ek;
               [try (apply string_eqb_true in Ek; done)|]
           end; by simplify_eq.
Qed.

Lemma update_fields_keeps_due_date t (kw : list (string * pyval)) t' :
  null_for "due_date" kw -> update_fields t kw = Some t' ->
  due_date t' = due_date t.
Proof.
  intros Hkw. revert t. induction Hkw as [|[k v] kw Hk _ IH]; intros t; simpl.
  - by intros [= <-].
  - destruct (hasattr k && negb (is_None v)) eqn:E; [|apply IH].
    destruct (setattr t k v) as [t1|] eqn:Es; [|done].
    intros Eu. rewrite (IH _ Eu). apply (setattr_keeps_due_date _ _ _ _ Es).
    intros ->. simpl in Hk. rewrite (Hk eq_refl) in E.
    by rewrite andb_false_r in E.
Qed.

Lemma null_for_kw_set key nm (kw : list (string * pyval)) :
  key <> "name" -> null_for key kw -> null_for key (kw_set "name" (PStr nm) kw).
Proof.
  unfold null_for, kw_set. intros Hkey Hkw. apply Forall_fmap.
  eapply Forall_impl; [exact Hkw|]. intros [k v] Hk. simpl in *.
  destruct (k =? "name")%string eqn:E; simpl; [by intros <-|exact Hk].
Qed.

(** C5, as the code has it. The constructor, given no due date, sets it
    seven days after the reading of the clock that it takes for it, which
    is [created_at] plus seven days when the clock has not advanced since
    [created_at] was read.  A task added without a due date is stored with
    that due date, in memory and in the user's file.  A null due date given
    to [update_task] does not clear it: the call answers and the due date
    of the task is what it was. *)
Theorem due_date_default_and_null_update `{IsoFormat} :
  (forall (w : World) (nm pr ca st de : string),
     exists t w',
       Task_init nm pr None ca st de w = Value t w'
       /\ due_date t = Some (now_at w (ticks w + 2) + timedelta_days 7)%Z
       /\ created_at t = now_at w (ticks w)
       /\ (now_at w (ticks w + 2) = now_at w (ticks w) ->
           due_date t = Some (created_at t + timedelta_days 7)%Z))
  /\ (forall (w : World) (nm pr ca de : string),
     strip nm <> "" ->
     (String.length (strip nm) <= 200)%nat ->
     writable w = true ->
     exists t w' records,
       add_task nm pr None ca de w
       = Value (true, ("Task '" ++ nm ++ "' added successfully")%string) w'
       /\ tasks w' = tasks w ++ [t]
       /\ due_date t = Some (now_at w (ticks w + 2) + timedelta_days 7)%Z
       /\ created_at t = now_at w (ticks w)
       /\ (now_at w (ticks w + 2) = now_at w (ticks w) ->
           due_date t = Some (created_at t + timedelta_days 7)%Z)
       /\ files w' !! username w = Some records
       /\ Forall2 stored_as (tasks w') records)
  /\ (forall (w : World) (tid : string) (kw : list (string * pyval)) i t0,
        get_task_by_id (tasks w) tid = Some (i, t0) ->
        Forall typed_kwarg kw ->
        null_for "due_date" kw ->
        exists r w' t',
          update_task tid kw w = Value r w'
          /\ tasks w' !! i = Some t'
          /\ due_date t' = due_date t0).
Proof.
  split; [|split].
  - intros w nm pr ca st de.
    destruct (Task_init_default_due_date nm pr ca st de w)
      as (t & w' & E & Hd & Hc & _).
    exists t, w'. rewrite Hd, Hc. repeat split; try done. by intros ->.
  - intros w nm pr ca de Hne Hlen Hw.
    unfold add_task, try_except.
    assert ((nm =? "")%string = false) as ->.
    { apply string_eqb_false. intros ->. by apply Hne. }
    assert ((strip nm =? "")%string = false) as -> by by apply string_eqb_false.
    assert ((200 <? String.length (strip nm))%nat = false) as ->
      by by apply Nat.ltb_ge.
    simpl.
    destruct (Task_init_default_due_date (strip nm) pr ca "Pending" de w)
      as (t & w1 & E1 & Hd & Hc & _ & Ht1 & Hu1 & Hw1 & _).
    rewrite (bind_Value _ _ _ _ _ E1).
    unfold bind at 1. unfold modify at 1.
    match goal with
    | |- context [bind save_tasks _ ?w2] =>
        destruct (save_tasks_spec w2) as (w' & Es & Ht & Hu & _ & _ & Hf & _);
        rewrite (bind_Value _ _ _ _ _ Es)
    end.
    simpl in *. rewrite Hw1, Hw in *. simpl.
    exists t, w', (map to_dict (tasks w')).
    rewrite Ht, Ht1, Hd, Hc. rewrite <- Hu1, <- Ht1.
    repeat split; try done.
    + by intros ->.
    + by apply Hf.
    + apply stored_as_tasks.
  - intros w tid kw i t0 Hfind Hty Hnull.
    apply get_task_by_id_lookup in Hfind as Hi. destruct Hi as [Hi _].
    destruct (update_task_typed w tid kw Hty)
      as (r & w' & E & _ & _
          & [[-> _]|(i' & t & kw' & t' & Hfind' & Hrel & Eu & Ht & _)]).
    + by exists r, w, t0.
    + rewrite Hfind in Hfind'. simplify_eq.
      eexists r, w', _. split; [done|]. split.
      * rewrite Ht. apply list_lookup_insert_eq. by eapply lookup_lt_Some.
      * simpl. apply (update_fields_keeps_due_date _ kw'); [|done].
        destruct Hrel as [->|[nm ->]]; [done|]. by apply null_for_kw_set.
Qed.

Lemma due_date_default_and_null_update_witness :
  (exists t w',
     Task_init "Call mom" "High" None "Personal" "Pending" ""
       (sample_world [] true) = Value t w'
     /\ due_date t = Some 63903427200002000%Z
     /\ created_at t = 63902822400000000%Z)
  /\ (exists t w',
     add_task " Call mom " "High" None "Personal" "" (sample_world [] true)
     = Value (true, "Task ' Call mom ' added successfully") w'
     /\ tasks w' = [t]
     /\ due_date t = Some 63903427200002000%Z
     /\ created_at t = 63902822400000000%Z)
  /\ (exists r w' t',
        update_task "a1b2c3d4" [("due_date", PNone); ("priority", PStr "High")]
          (sample_world [milk] false) = Value r w'
        /\ tasks w' !! 0 = Some t'
        /\ due_date t' = Some 63903340800000000%Z).
Proof.
  destruct due_date_default_and_null_update as (Hinit & Hadd & Hupd).
  split; [|split].
  - destruct (Hinit (sample_world [] true) "Call mom" "High" "Personal"
                "Pending" "") as (t & w' & E & Hd & Hc & _).
    exists t, w'. split; [exact E|]. split; [exact Hd|exact Hc].
  - destruct (Hadd (sample_world [] true) " Call mom " "High" "Personal" "")
      as (t & w' & records & E & Ht & Hd & Hc & _).
    + vm_compute. discriminate.
    + vm_compute. lia.
    + reflexivity.
    + exists t, w'. split; [exact E|]. split; [exact Ht|].
      split; [exact Hd|exact Hc].
  - destruct (Hupd (sample_world [milk] false) "a1b2c3d4"
                [("due_date", PNone); ("priority", PStr "High")] 0 milk)
      as (r & w' & t' & E & Hi & Hd).
    + reflexivity.
    + apply Forall_cons. split; [split; [done|by left]|].
      apply Forall_cons. split; [|by apply Forall_nil].
      split; [done|]. simpl. right. right. left. split; [|by eexists].
      unfold text_attributes. rewrite !elem_of_cons. tauto.
    + apply Forall_cons. split; [done|].
      apply Forall_cons. split; [simpl; discriminate|]. by apply Forall_nil.
    + exists r, w', t'. split; [exact E|]. split; [exact Hi|exact Hd].
Defined.

(** C5, as the specification states it, fails in its second part:
    [update_task] with [due_date=None] succeeds and the due date is still
    there. *)
Lemma update_task_does_not_clear_due_date :
  let o := update_task "a1b2c3d4" [("due_date", PNone)]
             (sample_world [milk] true) in
  returned o = Some (true, "Task updated successfully")
  /\ map due_date <$> final_tasks o = Some [Some 63903340800000000%Z]
  /\ due_date milk = Some 63903340800000000%Z.
Proof. repeat split; vm_compute; reflexivity. Qed.

(** *** Keyword arguments that are skipped *)








(** ** Further properties of the code *)

(** *** Adding a task *)

(** What the constructor builds. *)
Lemma Task_init_spec nm pr due ca st de (w : World) :
  exists w',
    Task_init nm pr due ca st de w
    = Value (mkTask (String.substring 0 8 (uuid_at w (draws w))) nm pr
               (Some (default (now_at w (ticks w + 2) + timedelta_days 7)%Z due))
               ca st de (now_at w (ticks w)) (now_at w (ticks w + 1))) w'
    /\ tasks w' = tasks w /\ username w' = username w
    /\ writable w' = writable w /\ files w' = files w.
Proof.
  replace (ticks w + 2) with (S (S (ticks w))) by lia.
  replace (ticks w + 1) with (S (ticks w)) by lia.
  destruct due; eexists; (split; [reflexivity|done]).
Qed.

Lemma strip_empty_iff nm :
  ((nm =? "") || (strip nm =? ""))%string = true <-> strip nm = "".
Proof.
  rewrite orb_true_iff, !string_eqb_true. split; [|by right].
  intros [->|E]; done.
Qed.


(** X2. After a successful [add_task] the new task is the one that
    [get_task_by_id] finds under its id exactly when no task of the
    collection had that id before; with a colliding id the lookup still
    answers with the older task. *)
Theorem add_task_then_get_by_id `{IsoFormat} (w : World) (nm pr : string)
    (due : option Z) (ca de : string) :
  strip nm <> "" ->
  (String.length (strip nm) <= 200)%nat ->
  writable w = true ->
  let new_id := String.substring 0 8 (uuid_at w (draws w)) in
  exists t msg w',
    add_task nm pr due ca de w = Value (true, msg) w'
    /\ tasks w' = tasks w ++ [t]
    /\ id t = new_id
    /\ (get_task_by_id (tasks w') new_id = Some (length (tasks w), t)
        <-> Forall (fun t0 => id t0 <> new_id) (tasks w))
    /\ (forall i t0, get_task_by_id (tasks w) new_id = Some (i, t0) ->
                     get_task_by_id (tasks w') new_id = Some (i, t0)).
Proof.
  intros Hne Hlen Hw new_id.
  unfold add_task, try_except.
  assert (((nm =? "") || (strip nm =? ""))%string = false) as ->.
  { destruct ((nm =? "") || (strip nm =? ""))%string eqn:E; [|done].
    apply strip_empty_iff in E. done. }
  assert ((200 <? String.length (strip nm))%nat = false) as ->
    by by apply Nat.ltb_ge.
  destruct (Task_init_spec (strip nm) pr due ca "Pending" de w)
    as (w1 & E & Ht1 & Hu1 & Hw1 & _).
  unfold bind at 1. rewrite E.
  unfold bind at 1. unfold modify at 1.
  match goal with
  | |- context [bind save_tasks _ ?w2] =>
      destruct (save_tasks_spec w2) as (w' & Es & Ht & _);
      rewrite (bind_Value _ _ _ _ _ Es)
  end.
  simpl in *. rewrite Hw1, Hw. simpl.
  eexists _, _, w'. split; [reflexivity|].
  rewrite Ht, Ht1. split; [done|]. split; [done|].
  unfold get_task_by_id. split; [split|].
  - intros Hf. apply list_find_Some in Hf as (_ & _ & Hbefore).
    apply Forall_forall. intros t0 Ht0.
    apply list_elem_of_lookup in Ht0 as [j Hj].
    apply (Hbefore j).
    + by apply lookup_app_l_Some.
    + by eapply lookup_lt_Some.
  - intros Hfresh. apply list_find_Some. split; [|split].
    + by rewrite lookup_app_r, Nat.sub_diag.
    + done.
    + intros j y Hj Hlt. rewrite lookup_app_l in Hj by done.
      rewrite Forall_forall in Hfresh. apply Hfresh.
      apply list_elem_of_lookup. eauto.
  - intros i t0 Hf. by apply list_find_app_l.
Qed.

Lemma add_task_then_get_by_id_witness :
  (strip "  Call mom " <> ""
   /\ (String.length (strip "  Call mom ") <= 200)%nat)
  /\ exists t msg w',
       add_task "  Call mom " "High" None "Personal" ""
         (sample_world [milk] true) = Value (true, msg) w'
       /\ tasks w' = [milk] ++ [t]
       /\ get_task_by_id (tasks w') "4f9d2c70" = Some (1, t).
Proof.
  assert (H1 : strip "  Call mom " <> "") by (vm_compute; discriminate).
  assert (H2 : (String.length (strip "  Call mom ") <= 200)%nat)
    by (vm_compute; lia).
  split; [done|].
  destruct (add_task_then_get_by_id (sample_world [milk] true)
              "  Call mom " "High" None "Personal" "" H1 H2 eq_refl)
    as (t & msg & w' & E & Ht & _ & Hiff & _).
  exists t, msg, w'. split; [exact E|]. split; [exact Ht|].
  apply Hiff. repeat constructor. vm_compute. discriminate.
Defined.

(** *** An id that is not there *)

Lemma no_parameter_name (kw : list (string * pyval)) :
  Forall (fun p => parameter_name (fst p) = false) kw ->
  colliding_keyword kw = None.
Proof.
  induction 1 as [|[k v] kw Hk _ IH]; [done|]. simpl in *. by rewrite Hk.
Qed.

(** X3. With an id that no task carries, [update_task], [mark_completed],
    [mark_pending] and [delete_task] answer "Task not found" and leave the
    manager, the disk and the clock as they are. *)
Theorem unknown_id_changes_nothing `{IsoFormat} (w : World) (tid : string)
    (kw : list (string * pyval)) :
  Forall (fun t => id t <> tid) (tasks w) ->
  Forall (fun p => parameter_name (fst p) = false) kw ->
  update_task tid kw w = Value (false, "Task not found") w
  /\ mark_completed tid w = Value (false, "Task not found") w
  /\ mark_pending tid w = Value (false, "Task not found") w
  /\ delete_task tid w = Value (false, "Task not found") w.
Proof.
  intros Hall Hkw.
  assert (get_task_by_id (tasks w) tid = None) as Hfind
    by by apply list_find_None.
  split; [apply update_task_missing; [done|by apply no_parameter_name]|].
  split; [by apply update_task_missing|].
  split; [by apply update_task_missing|].
  unfold delete_task, try_except.
  unfold bind at 1. unfold get_world at 1. by rewrite Hfind.
Qed.

Lemma unknown_id_changes_nothing_witness :
  Forall (fun t => id t <> "ffffffff") [milk; report]
  /\ update_task "ffffffff" [("status", PStr "Completed")]
       (sample_world [milk; report] true)
     = Value (false, "Task not found") (sample_world [milk; report] true)
  /\ delete_task "ffffffff" (sample_world [milk; report] true)
     = Value (false, "Task not found") (sample_world [milk; report] true).
Proof.
  assert (Hall : Forall (fun t => id t <> "ffffffff") [milk; report])
    by (repeat constructor; vm_compute; discriminate).
  assert (Hkw : Forall (fun p : string * pyval => parameter_name (fst p) = false)
                  [("status", PStr "Completed")])
    by (repeat constructor).
  split; [exact Hall|].
  destruct (unknown_id_changes_nothing (sample_world [milk; report] true)
              "ffffffff" [("status", PStr "Completed")] Hall Hkw)
    as (Hu & _ & _ & Hd).
  split; [exact Hu|exact Hd].
Defined.

(** *** Deleting a task *)

(** What [delete_task] does with a task that it finds. *)
Lemma delete_task_found `{IsoFormat} (w : World) (tid : string) i t :
  get_task_by_id (tasks w) tid = Some (i, t) ->
  exists w',
    delete_task tid w
    = Value (if writable w
             then (true, ("Task '" ++ name t ++ "' deleted successfully")%string)
             else (false, "Failed to save changes")) w'
    /\ tasks w' = (if writable w then delete i (tasks w)
                   else delete i (tasks w) ++ [t])
    /\ (writable w = true ->
        files w' !! username w = Some (map to_dict (tasks w')))
    /\ (writable w = false -> files w' = files w).
Proof.
  intros Hfind. unfold delete_task, try_except.
  unfold bind at 1. unfold get_world at 1. rewrite Hfind.
  unfold bind at 1. unfold modify at 1.
  match goal with
  | |- context [bind save_tasks _ ?w2] =>
      destruct (save_tasks_spec w2) as (w' & Es & Ht & Hu & _ & _ & Hf & Hg);
      rewrite (bind_Value _ _ _ _ _ Es)
  end.
  simpl in *. destruct (writable w) eqn:Hw; simpl.
  - exists w'. split; [done|]. split; [done|]. split; [|done].
    intros _. rewrite Ht. by apply Hf.
  - eexists. split; [reflexivity|]. simpl. rewrite Ht.
    split; [done|]. split; [done|]. intros _. by apply Hg.
Qed.

Lemma elem_of_delete_lookup (l : list Task) i x :
  x ∈ delete i l -> exists j, j <> i /\ l !! j = Some x.
Proof.
  intros Hx. apply list_elem_of_lookup in Hx as [j Hj].
  destruct (decide (j < i)) as [Hlt|Hge].
  - rewrite list_lookup_delete_lt in Hj by done. exists j. split; [lia|done].
  - rewrite list_lookup_delete_ge in Hj by lia. exists (S j). split; [lia|done].
Qed.

(** X4. When the save succeeds, [delete_task] removes one task, the first
    that carries the id, and keeps the others in their order; the user's
    file holds the records of the remaining tasks.  If the ids of the
    collection are pairwise distinct, the id is not found afterwards. *)
Theorem delete_task_removes_first `{IsoFormat} (w : World) (tid : string) i t :
  get_task_by_id (tasks w) tid = Some (i, t) ->
  writable w = true ->
  exists w' records,
    delete_task tid w
    = Value (true, ("Task '" ++ name t ++ "' deleted successfully")%string) w'
    /\ tasks w' = take i (tasks w) ++ drop (S i) (tasks w)
    /\ S (length (tasks w')) = length (tasks w)
    /\ files w' !! username w = Some records
    /\ Forall2 stored_as (tasks w') records
    /\ (NoDup (id <$> tasks w) -> get_task_by_id (tasks w') tid = None).
Proof.
  intros Hfind Hw.
  destruct (delete_task_found w tid i t Hfind) as (w' & E & Ht & Hf & _).
  rewrite Hw in E, Ht. exists w', (map to_dict (tasks w')).
  split; [done|]. split; [by rewrite Ht, delete_take_drop|].
  apply get_task_by_id_lookup in Hfind as [Hi Hid].
  split; [|split; [by apply Hf|split; [apply stored_as_tasks|]]].
  - rewrite Ht, length_delete by eauto.
    apply lookup_lt_Some in Hi. lia.
  - intros Hnd. rewrite Ht. apply list_find_None, Forall_forall.
    intros x Hx Hxid. apply elem_of_delete_lookup in Hx as (j & Hj & Hlj).
    apply Hj. apply (NoDup_lookup _ _ _ tid Hnd).
    + rewrite list_lookup_fmap, Hlj. simpl. by rewrite Hxid.
    + rewrite list_lookup_fmap, Hi. simpl. by rewrite Hid.
Qed.

Lemma delete_task_removes_first_witness :
  get_task_by_id (tasks (sample_world [report; milk; taxes] true)) "a1b2c3d4"
  = Some (1, milk)
  /\ exists w',
       delete_task "a1b2c3d4" (sample_world [report; milk; taxes] true)
       = Value (true, "Task 'Buy milk' deleted successfully") w'
       /\ tasks w' = [report; taxes]
       /\ get_task_by_id (tasks w') "a1b2c3d4" = None.
Proof.
  assert (Hfind : get_task_by_id
                    (tasks (sample_world [report; milk; taxes] true)) "a1b2c3d4"
                  = Some (1, milk)) by reflexivity.
  split; [exact Hfind|].
  destruct (delete_task_removes_first (sample_world [report; milk; taxes] true)
              "a1b2c3d4" 1 milk Hfind eq_refl)
    as (w' & records & E & Ht & _ & _ & _ & Hnone).
  exists w'. split; [exact E|]. split; [exact Ht|].
  apply Hnone. simpl.
  repeat (apply NoDup_cons; split;
          [rewrite ?elem_of_cons, elem_of_nil; intros Hin;
           repeat destruct Hin as [Hin|Hin]; done|]).
  apply NoDup_nil_2.
Defined.



(** *** Updating one task *)

(** X6. [update_task] never changes the number of tasks, and it touches
    one position only: that of the first task that carries the id.  Every
    other task, also one with the same id further on, is left as it is,
    whether the call succeeds or fails. *)
Theorem update_task_touches_one `{IsoFormat} (w : World) (tid : string)
    (kw : list (string * pyval)) i t :
  get_task_by_id (tasks w) tid = Some (i, t) ->
  Forall typed_kwarg kw ->
  exists r w',
    update_task tid kw w = Value r w'
    /\ length (tasks w') = length (tasks w)
    /\ forall j, j <> i -> tasks w' !! j = tasks w !! j.
Proof.
  intros Hfind Hty.
  destruct (update_task_typed w tid kw Hty)
    as (r & w' & E & _ & _
        & [[-> _]|(i' & t0 & kw' & t1 & Hfind' & _ & _ & Ht & _)]).
  - by exists r, w.
  - rewrite Hfind in Hfind'. injection Hfind' as <- <-.
    exists r, w'. split; [done|]. rewrite Ht. split.
    + apply length_insert.
    + intros j Hj. by apply list_lookup_insert_ne.
Qed.

Lemma update_task_touches_one_witness :
  get_task_by_id (tasks (sample_world [milk; report; milk] true)) "a1b2c3d4"
  = Some (0, milk)
  /\ exists r w',
       update_task "a1b2c3d4" [("priority", PStr "High")]
         (sample_world [milk; report; milk] true) = Value r w'
       /\ length (tasks w') = 3
       /\ tasks w' !! 1 = Some report
       /\ tasks w' !! 2 = Some milk.
Proof.
  assert (Hfind : get_task_by_id
                    (tasks (sample_world [milk; report; milk] true))
                    "a1b2c3d4" = Some (0, milk)) by reflexivity.
  split; [exact Hfind|].
  destruct (update_task_touches_one (sample_world [milk; report; milk] true)
              "a1b2c3d4" [("priority", PStr "High")] 0 milk Hfind)
    as (r & w' & E & Hlen & Hrest).
  - apply Forall_cons. split; [|by apply Forall_nil].
    split; [done|]. simpl. right. right. left. split; [|by eexists].
    unfold text_attributes. rewrite !elem_of_cons. tauto.
  - exists r, w'. split; [exact E|]. split; [exact Hlen|].
    split; [exact (Hrest 1 ltac:(discriminate))
           |exact (Hrest 2 ltac:(discriminate))].
Defined.

(** X7. A new name that is not the empty string is validated after
    stripping: white space alone and more than 200 characters are refused
    and nothing changes, not even the clock; any other name is stored
    stripped, [updated_at] becomes the reading of the clock and the other
    attributes stay. *)
Theorem update_task_name `{IsoFormat} (w : World) (tid s : string) i t :
  get_task_by_id (tasks w) tid = Some (i, t) ->
  s <> "" ->
  (strip s = "" ->
   update_task tid [("name", PStr s)] w
   = Value (false, "Task name cannot be empty") w)
  /\ ((200 < String.length (strip s))%nat ->
      update_task tid [("name", PStr s)] w
      = Value (false, "Task name is too long (max 200 characters)") w)
  /\ (strip s <> "" -> (String.length (strip s) <= 200)%nat ->
      exists w' t',
        update_task tid [("name", PStr s)] w
        = Value (if writable w then (true, "Task updated successfully")
                 else (false, "Failed to save changes")) w'
        /\ tasks w' = <[i := t']> (tasks w)
        /\ name t' = strip s
        /\ updated_at t' = now_at w (ticks w)
        /\ id t' = id t /\ priority t' = priority t
        /\ due_date t' = due_date t /\ category t' = category t
        /\ status t' = status t /\ description t' = description t
        /\ created_at t' = created_at t).
Proof.
  intros Hfind Hs.
  pose proof (update_task_found w tid [("name", PStr s)] i t Hfind eq_refl)
    as Hspec.
  unfold validate_name in Hspec. simpl in Hspec.
  apply string_eqb_false in Hs. rewrite Hs in Hspec. simpl in Hspec.
  destruct (strip s =? "")%string eqn:E1.
  { apply string_eqb_true in E1. split; [done|]. rewrite E1. simpl.
    split; [lia|done]. }
  apply string_eqb_false in E1.
  destruct (200 <? String.length (strip s))%nat eqn:E2.
  { apply Nat.ltb_lt in E2. split; [done|]. split; [done|]. lia. }
  apply Nat.ltb_ge in E2. split; [done|]. split; [lia|]. intros _ _.
  simpl in Hspec. destruct Hspec as (w' & E & Ht & _).
  eexists w', _. split; [exact E|]. split; [exact Ht|]. done.
Qed.

Lemma update_task_name_witness :
  (get_task_by_id (tasks (sample_world [milk] true)) "a1b2c3d4" = Some (0, milk)
   /\ "  Buy bread " <> "")
  /\ exists w' t',
       update_task "a1b2c3d4" [("name", PStr "  Buy bread ")]
         (sample_world [milk] true)
       = Value (true, "Task updated successfully") w'
       /\ tasks w' = [t']
       /\ name t' = "Buy bread"
       /\ updated_at t' = 63902822400000000%Z.
Proof.
  assert (Hfind : get_task_by_id (tasks (sample_world [milk] true)) "a1b2c3d4"
                  = Some (0, milk)) by reflexivity.
  assert (Hs : "  Buy bread " <> "") by discriminate.
  split; [done|].
  destruct (update_task_name (sample_world [milk] true) "a1b2c3d4"
              "  Buy bread " 0 milk Hfind Hs) as (_ & _ & Hok).
  destruct Hok as (w' & t' & E & Ht & Hn & Hu & _).
  - vm_compute. discriminate.
  - vm_compute. lia.
  - exists w', t'. split; [exact E|]. split; [exact Ht|].
    split; [exact Hn|exact Hu].
Defined.

(** *** Completing and clearing *)

Lemma filter_not_completed_id (l : list Task) :
  Forall (fun t => status t <> "Completed") l ->
  filter (fun t => status t <> "Completed") l = l.
Proof.
  induction 1 as [|t l Ht _ IH]; [done|].
  by rewrite filter_cons_True, IH.
Qed.

Lemma filter_not_completed_Forall (l : list Task) :
  Forall (fun t => status t <> "Completed")
         (filter (fun t => status t <> "Completed") l).
Proof.
  apply Forall_forall. intros t Ht. by apply list_elem_of_filter in Ht as [? _].
Qed.

(** A call that finds nothing to remove. *)
Lemma clear_completed_tasks_nothing `{IsoFormat} (w : World) :
  Forall (fun t => status t <> "Completed") (tasks w) ->
  clear_completed_tasks w = Value (true, "No completed tasks to remove") w.
Proof.
  intros Hall. unfold clear_completed_tasks, try_except.
  unfold bind at 1. unfold get_world at 1.
  apply get_completed_nil in Hall. by rewrite Hall.
Qed.

(** A call that removes tasks and saves. *)
Lemma clear_completed_tasks_saved `{IsoFormat} (w : World) :
  writable w = true ->
  Exists (fun t => status t = "Completed") (tasks w) ->
  exists w',
    clear_completed_tasks w
    = Value (true,
             ("Removed "
              ++ str_of_nat (length (filter (fun t => status t = "Completed")
                                       (tasks w)))
              ++ " completed tasks")%string) w'
    /\ tasks w' = filter (fun t => status t <> "Completed") (tasks w)
    /\ files w' !! username w = Some (map to_dict (tasks w')).
Proof.
  intros Hw Hsome. unfold clear_completed_tasks, try_except.
  unfold bind at 1. unfold get_world at 1.
  destruct (get_tasks_by_status (Some "Completed") (tasks w)) as [|c cs] eqn:Ec.
  { apply get_completed_nil in Ec. apply Exists_exists in Hsome as (t & Ht & Hs).
    rewrite Forall_forall in Ec. by destruct (Ec _ Ht). }
  unfold bind at 1. unfold modify at 1.
  match goal with
  | |- context [bind save_tasks _ ?w2] =>
      destruct (save_tasks_spec w2) as (w' & Es & Ht & Hu & _ & _ & Hf & _);
      rewrite (bind_Value _ _ _ _ _ Es)
  end.
  simpl in *. rewrite Hw. simpl.
  exists w'. split.
  { change (S (length cs)) with (length (c :: cs)). by rewrite <- Ec. }
  split; [done|]. rewrite Ht. by apply Hf.
Qed.

(** X8. With a disk that can be written, [clear_completed_tasks] always
    succeeds: it keeps the tasks that are not Completed, in their order,
    and no Completed task is left.  When there was none to remove it
    touches nothing, neither the disk nor the clock; otherwise the message
    gives the number of tasks removed and the user's file holds the
    records of the remaining tasks.  A second call right after finds
    nothing to remove. *)
Theorem clear_completed_tasks_outcome `{IsoFormat} (w : World) :
  writable w = true ->
  exists msg w',
    clear_completed_tasks w = Value (true, msg) w'
    /\ tasks w' = filter (fun t => status t <> "Completed") (tasks w)
    /\ Forall (fun t => status t <> "Completed") (tasks w')
    /\ (Forall (fun t => status t <> "Completed") (tasks w) ->
        w' = w /\ msg = "No completed tasks to remove")
    /\ (Exists (fun t => status t = "Completed") (tasks w) ->
        msg = ("Removed "
               ++ str_of_nat (length (filter (fun t => status t = "Completed")
                                        (tasks w)))
               ++ " completed tasks")%string
        /\ exists records,
             files w' !! username w = Some records
             /\ Forall2 stored_as (tasks w') records)
    /\ clear_completed_tasks w' = Value (true, "No completed tasks to remove") w'.
Proof.
  intros Hw.
  destruct (decide (Forall (fun t => status t <> "Completed") (tasks w)))
    as [Hall|Hsome].
  - exists "No completed tasks to remove", w.
    rewrite (clear_completed_tasks_nothing w Hall).
    rewrite filter_not_completed_id by done.
    split; [done|]. split; [done|]. split; [done|]. split; [done|].
    split; [|done].
    intros Hex. apply Exists_exists in Hex as (t & Ht & Hs).
    rewrite Forall_forall in Hall. by destruct (Hall _ Ht).
  - assert (Hex : Exists (fun t => status t = "Completed") (tasks w)).
    { apply not_Forall_Exists in Hsome; [|intros t; apply _].
      eapply Exists_impl; [exact Hsome|]. intros t Ht. simpl in Ht.
      by destruct (decide (status t = "Completed")). }
    destruct (clear_completed_tasks_saved w Hw Hex) as (w' & E & Ht & Hf).
    eexists _, w'. split; [exact E|]. split; [exact Ht|].
    split; [rewrite Ht; apply filter_not_completed_Forall|].
    split; [done|]. split.
    + intros _. split; [done|].
      eexists. split; [exact Hf|apply stored_as_tasks].
    + apply clear_completed_tasks_nothing. rewrite Ht.
      apply filter_not_completed_Forall.
Qed.

Lemma clear_completed_tasks_outcome_witness :
  exists msg w',
    clear_completed_tasks (sample_world [milk; taxes; report] true)
    = Value (true, msg) w'
    /\ tasks w' = [milk; report].
Proof.
  destruct (clear_completed_tasks_outcome
              (sample_world [milk; taxes; report] true) eq_refl)
    as (msg & w' & E & Ht & _).
  exists msg, w'. split; [exact E|]. rewrite Ht. reflexivity.
Defined.

(** What [mark_completed] does with a task that it finds. *)
Lemma mark_completed_found `{IsoFormat} (w : World) (tid : string) i t :
  get_task_by_id (tasks w) tid = Some (i, t) ->
  exists w' t',
    mark_completed tid w
    = Value (if writable w then (true, "Task updated successfully")
             else (false, "Failed to save changes")) w'
    /\ tasks w' = <[i := t']> (tasks w)
    /\ status t' = "Completed"
    /\ username w' = username w /\ writable w' = writable w.
Proof.
  intros Hfind. unfold mark_completed.
  pose proof (update_task_found w tid [("status", PStr "Completed")] i t
                Hfind eq_refl) as Hspec.
  simpl in Hspec. destruct Hspec as (w' & E & Ht & _ & _ & Hu & Hw).
  by eexists w', _.
Qed.

(** X9. Marking a task as completed and then clearing the completed tasks
    removes it: with a disk that can be written both calls succeed, and
    what is left are the tasks other than that one which were not
    Completed, in their order, in memory and in the user's file. *)
Theorem mark_completed_then_clear `{IsoFormat} (w : World) (tid : string) i t :
  get_task_by_id (tasks w) tid = Some (i, t) ->
  writable w = true ->
  exists w1 msg w2 records,
    mark_completed tid w = Value (true, "Task updated successfully") w1
    /\ clear_completed_tasks w1 = Value (true, msg) w2
    /\ tasks w2
       = filter (fun t => status t <> "Completed")
           (take i (tasks w) ++ drop (S i) (tasks w))
    /\ files w2 !! username w = Some records
    /\ Forall2 stored_as (tasks w2) records.
Proof.
  intros Hfind Hw.
  destruct (mark_completed_found w tid i t Hfind)
    as (w1 & t' & E1 & Ht1 & Hst & Hu1 & Hw1).
  rewrite Hw in E1, Hw1.
  apply get_task_by_id_lookup in Hfind as [Hi _].
  assert (Hlt : i < length (tasks w)) by by eapply lookup_lt_Some.
  destruct (clear_completed_tasks_saved w1 Hw1) as (w2 & E2 & Ht2 & Hfile).
  { apply Exists_exists. exists t'. split; [|done].
    rewrite Ht1. apply list_elem_of_lookup. exists i.
    by apply list_lookup_insert_eq. }
  eexists w1, _, w2, (map to_dict (tasks w2)).
  split; [done|]. split; [exact E2|].
  split; [|split; [by rewrite <- Hu1|apply stored_as_tasks]].
  rewrite Ht2, Ht1. rewrite insert_take_drop by done.
  rewrite !filter_app. f_equal.
  rewrite filter_cons_False; [done|]. by intros Hn.
Qed.

Lemma mark_completed_then_clear_witness :
  get_task_by_id (tasks (sample_world [milk; taxes; report] true)) "a1b2c3d4"
  = Some (0, milk)
  /\ exists w1 msg w2,
       mark_completed "a1b2c3d4" (sample_world [milk; taxes; report] true)
       = Value (true, "Task updated successfully") w1
       /\ clear_completed_tasks w1 = Value (true, msg) w2
       /\ tasks w2 = [report].
Proof.
  assert (Hfind : get_task_by_id
                    (tasks (sample_world [milk; taxes; report] true))
                    "a1b2c3d4" = Some (0, milk)) by reflexivity.
  split; [exact Hfind|].
  destruct (mark_completed_then_clear (sample_world [milk; taxes; report] true)
              "a1b2c3d4" 0 milk Hfind eq_refl)
    as (w1 & msg & w2 & records & E1 & E2 & Ht & _).
  exists w1, msg, w2. split; [exact E1|]. split; [exact E2|].
  rewrite Ht. reflexivity.
Defined.

(** *** Loading what was saved *)

(** [from_dict] on a record whose due date it does not accept. *)
Lemma from_dict_without_due_date `{IsoFormat} data w nm :
  data !! "name" = Some (PStr nm) ->
  text_typed data ->
  stored_date data "due_date" = None ->
  exists w',
    from_dict data w
    = Value (mkTask
               (text_or data "id" (String.substring 0 8 (uuid_at w (draws w))))
               nm
               (text_or data "priority" "Medium")
               (Some (now_at w (ticks w + 4) + timedelta_days 7)%Z)
               (text_or data "category" "General")
               (text_or data "status" "Pending")
               (text_or data "description" "")
               (default (now_at w (ticks w)) (stored_date data "created_at"))
               (default (now_at w (ticks w + 1)) (stored_date data "updated_at")))
            w'
    /\ ticks w' = ticks w + 5 /\ now_at w' = now_at w
    /\ tasks w' = tasks w /\ username w' = username w /\ files w' = files w
    /\ writable w' = writable w.
Proof.
  intros Hname Htyped Hdue.
  assert (forall key dflt, key ∈ text_fields ->
            dict_get data key (PStr dflt) = PStr (text_or data key dflt)) as Hget
    by (intros; by apply text_typed_get).
  assert (Hin : forall key, key ∈ text_fields
                            <-> key = "priority" \/ key = "category"
                                \/ key = "status" \/ key = "description"
                                \/ key = "id").
  { intros key. unfold text_fields. rewrite !elem_of_cons, elem_of_nil. tauto. }
  unfold from_dict, Task_init, bind, now, uuid4, ret. rewrite Hname, Hdue.
  rewrite !Hget by (apply Hin; tauto).
  cbn [as_str ret].
  replace (ticks w + 4) with (S (S (S (S (ticks w))))) by lia.
  replace (ticks w + 1) with (S (ticks w)) by lia.
  cbn. rewrite !Hget by (apply Hin; tauto). cbn.
  eexists. split; [reflexivity|]. simpl. repeat split; try done. lia.
Qed.

(** A record that was saved, as [load_user_tasks] hands it to [from_dict]:
    the due date and [updated_at] have become [datetime] objects, which
    [from_dict] does not parse. *)
Lemma from_dict_saved `{IsoFormat} (t : Task) (w : World) :
  exists w',
    from_dict (map_imap (fun k v => Some (loaded_value k v)) (to_dict t)) w
    = Value (mkTask (id t) (name t) (priority t)
               (Some (now_at w (ticks w + 4) + timedelta_days 7)%Z)
               (category t) (status t) (description t) (created_at t)
               (now_at w (ticks w + 1))) w'
    /\ ticks w' = ticks w + 5 /\ now_at w' = now_at w
    /\ tasks w' = tasks w /\ username w' = username w /\ files w' = files w
    /\ writable w' = writable w.
Proof.
  set (r := map_imap (fun k v => Some (loaded_value k v)) (to_dict t)).
  destruct (stored_as_to_dict t)
    as (Hid & Hna & Hpr & Hdu & Hca & Hst & Hde & Hcr & Hup).
  assert (Hlook : forall key, contains "date" (lower key) = false ->
                              r !! key = to_dict t !! key)
    by (intros key Hk; by apply loaded_lookup).
  assert (Hdue : stored_date r "due_date" = None).
  { unfold stored_date, dict_get, r. rewrite map_lookup_imap, Hdu.
    destruct (due_date t) as [d|]; [|done].
    change (Some (PStr (isoformat d)) ≫= (fun v => Some (loaded_value "due_date" v)))
      with (Some (loaded_value "due_date" (PStr (isoformat d)))).
    unfold loaded_value.
    change (contains "date" (lower "due_date")) with true.
    cbv iota. by rewrite fromisoformat_isoformat. }
  assert (Hupd : stored_date r "updated_at" = None).
  { unfold stored_date, dict_get, r. rewrite map_lookup_imap, Hup.
    change (Some (PStr (isoformat (updated_at t)))
              ≫= (fun v => Some (loaded_value "updated_at" v)))
      with (Some (loaded_value "updated_at" (PStr (isoformat (updated_at t))))).
    unfold loaded_value.
    change (contains "date" (lower "updated_at")) with true.
    cbv iota. by rewrite fromisoformat_isoformat. }
  assert (Hcre : stored_date r "created_at" = Some (created_at t)).
  { apply stored_date_isoformat. by rewrite Hlook. }
  assert (Hty : text_typed r).
  { apply loadable_loaded. split; [by eexists|apply to_dict_text_typed]. }
  destruct (from_dict_without_due_date r w (name t)) as (w' & E & Hrest);
    [by rewrite Hlook|done|done|].
  exists w'. split; [|done]. rewrite E, Hcre, Hupd. simpl.
  unfold text_or. by rewrite !Hlook, Hid, Hpr, Hca, Hst, Hde by reflexivity.
Qed.

Lemma mapM_from_dict_saved `{IsoFormat} (l : list Task) (w : World) :
  exists (l' : list Task) (w' : World),
    mapM from_dict
      (map (map_imap (fun k v => Some (loaded_value k v))) (map to_dict l)) w
    = Value l' w'
    /\ length l' = length l
    /\ (forall i t,
          l !! i = Some t ->
          l' !! i
          = Some (mkTask (id t) (name t) (priority t)
                    (Some (now_at w (ticks w + 5 * i + 4) + timedelta_days 7)%Z)
                    (category t) (status t) (description t) (created_at t)
                    (now_at w (ticks w + 5 * i + 1))))
    /\ now_at w' = now_at w /\ username w' = username w /\ files w' = files w
    /\ writable w' = writable w.
Proof.
  revert w. induction l as [|t l IH]; intros w.
  - exists [], w. split; [reflexivity|]. split; [reflexivity|].
    split; [intros i t Hi; by rewrite lookup_nil in Hi|]. by repeat split.
  - destruct (from_dict_saved t w) as (w1 & E1 & Hk1 & Hn1 & _ & Hu1 & Hf1 & Hw1).
    destruct (IH w1) as (l' & w' & E & Hlen & Hl' & Hn & Hu & Hf & Hw).
    eexists (_ :: l'), w'. split.
    { cbn [map mapM]. rewrite (bind_Value _ _ _ _ _ E1).
      rewrite (bind_Value _ _ _ _ _ E). reflexivity. }
    clear E1 E IH.
    split; [cbn [length]; by rewrite Hlen|].
    split; [|rewrite Hn, Hu, Hf, Hw; by repeat split].
    intros [|i] t0 Hi.
    + injection Hi as <-.
      replace (ticks w + 5 * 0 + 4) with (ticks w + 4) by lia.
      replace (ticks w + 5 * 0 + 1) with (ticks w + 1) by lia.
      reflexivity.
    + change (l !! i = Some t0) in Hi.
      change (l' !! i = Some (mkTask (id t0) (name t0) (priority t0)
                (Some (now_at w (ticks w + 5 * S i + 4) + timedelta_days 7)%Z)
                (category t0) (status t0) (description t0) (created_at t0)
                (now_at w (ticks w + 5 * S i + 1)))).
      rewrite (Hl' i t0 Hi), Hn1, Hk1.
      replace (ticks w + 5 + 5 * i + 4) with (ticks w + 5 * S i + 4) by lia.
      replace (ticks w + 5 + 5 * i + 1) with (ticks w + 5 * S i + 1) by lia.
      reflexivity.
Qed.

(** [save_tasks] reads the clock once, for the name of the backup, when
    the user's file exists, and not at all otherwise. *)
Lemma save_tasks_clock `{IsoFormat} (w : World) :
  exists w',
    save_tasks w = Value (writable w) w'
    /\ ticks w' = match files w !! username w with
                  | Some _ => S (ticks w)
                  | None => ticks w
                  end.
Proof.
  unfold save_tasks, save_user_tasks, create_backup, bind, get_world, modify,
    now, ret.
  destruct (files w !! username w) as [content|]; simpl;
    destruct (writable w) eqn:Hw; simpl; rewrite ?Hw; simpl;
    eexists; (split; [reflexivity|done]).
Qed.

(** X10. Tasks that were saved do not come back as they were.  A manager
    that is created for the user after a successful save holds as many
    tasks, in the same order, with the id, name, priority, category,
    status, description and [created_at] that were saved; but the due
    date of every task is seven days after a reading of the clock taken
    while loading, whatever it was before, and [updated_at] is a reading
    of the clock as well.  The save itself reads the clock once when the
    user's file exists. *)
Theorem saved_tasks_reload `{IsoFormat} (w : World) :
  writable w = true ->
  exists w1 w2,
    save_tasks w = Value true w1
    /\ TaskManager_init (username w) w1 = Value tt w2
    /\ ticks w1 = match files w !! username w with
                  | Some _ => S (ticks w)
                  | None => ticks w
                  end
    /\ length (tasks w2) = length (tasks w)
    /\ forall i t,
         tasks w !! i = Some t ->
         exists t',
           tasks w2 !! i = Some t'
           /\ id t' = id t /\ name t' = name t /\ priority t' = priority t
           /\ category t' = category t /\ status t' = status t
           /\ description t' = description t /\ created_at t' = created_at t
           /\ due_date t'
              = Some (now_at w (ticks w1 + 5 * i + 4) + timedelta_days 7)%Z
           /\ updated_at t' = now_at w (ticks w1 + 5 * i + 1).
Proof.
  intros Hw.
  destruct (save_tasks_spec w) as (w1 & Es & Ht1 & Hu1 & Hw1 & Hn1 & Hf1 & _).
  rewrite Hw in Es. specialize (Hf1 Hw).
  assert (Hk1 : ticks w1 = match files w !! username w with
                           | Some _ => S (ticks w)
                           | None => ticks w
                           end).
  { destruct (save_tasks_clock w) as (w1' & Es' & Hk). rewrite Hw in Es'.
    rewrite Es in Es'. by injection Es' as <-. }
  exists w1.
  unfold TaskManager_init, load_tasks, load_user_tasks.
  unfold bind at 1. unfold modify at 1.
  unfold bind at 1. unfold get_world at 1.
  unfold bind at 1. unfold bind at 1. unfold get_world at 1.
  cbn [username files]. rewrite Hf1. unfold ret at 1. cbv beta iota.
  match goal with
  | |- context [bind (mapM from_dict _) _ ?w0] =>
      destruct (mapM_from_dict_saved (tasks w) w0)
        as (l' & w2 & E & Hlen & Hl' & _)
  end.
  rewrite (bind_Value _ _ _ _ _ E). unfold modify.
  eexists. split; [exact Es|]. split; [reflexivity|]. clear E Es.
  split; [exact Hk1|].
  cbn [tasks set_tasks]. split; [exact Hlen|]. intros i t Hi.
  eexists. split; [by apply Hl'|]. cbn [now_at ticks]. rewrite Hn1.
  by repeat split.
Qed.

Lemma saved_tasks_reload_witness :
  exists w1 w2 t',
    save_tasks (sample_world [milk] true) = Value true w1
    /\ TaskManager_init "alice" w1 = Value tt w2
    /\ tasks w2 !! 0 = Some t'
    /\ id t' = "a1b2c3d4"
    /\ due_date milk = Some 63903340800000000%Z
    /\ due_date t' = Some 63903427200004000%Z.
Proof.
  destruct (saved_tasks_reload (sample_world [milk] true) eq_refl)
    as (w1 & w2 & Es & Ei & Hk & _ & Hall).
  destruct (Hall 0 milk eq_refl)
    as (t' & Hi & Hid & _ & _ & _ & _ & _ & _ & Hdue & _).
  exists w1, w2, t'. split; [exact Es|]. split; [exact Ei|].
  split; [exact Hi|]. split; [exact Hid|]. split; [reflexivity|].
  rewrite Hdue, Hk. reflexivity.
Defined.
